(** * Unspoken-Pain Finder: credential store, idea store and quota policy

    A shallow embedding of [pain_finder.py].  The SQLite store is a record
    of two tables, each a list of rows in insertion (rowid) order; every
    function of the script that touches the store takes the store and
    returns the new one.  A raised Python exception is the [Raise] case of
    [result].  What the script prints through Streamlit and what it sends
    to the Gemini client is recorded as a list of [ui_event]s, in program
    order, so that "no call was made" is a statement about that list.
    Calls that only lay the page out (titles, captions, tabs, text
    inputs) are not recorded. *)

From stdpp Require Import base strings list sorting pretty relations.
From Stdlib Require Import ZArith Lia.

Local Open Scope Z_scope.

(** ** Rows and tables *)

(** [users (username TEXT PRIMARY KEY, password TEXT, plan TEXT)] *)
Record user_row := UserRow {
  u_username : string;
  u_password : string;
  u_plan : string
}.

(** [ideas (id INTEGER PRIMARY KEY, username, input, output, timestamp)].
    [timestamp] holds the text SQLite's CURRENT_TIMESTAMP produced,
    "YYYY-MM-DD HH:MM:SS"; SQLite compares such values as text, byte by
    byte. *)
Record idea_row := IdeaRow {
  i_id : Z;
  i_username : string;
  i_input : string;
  i_output : string;
  i_timestamp : string
}.

Record db := Db {
  users : list user_row;
  ideas : list idea_row
}.

Global Instance user_row_eq_dec : EqDecision user_row.
Proof. solve_decision. Defined.

Global Instance idea_row_eq_dec : EqDecision idea_row.
Proof. solve_decision. Defined.

Global Instance db_eq_dec : EqDecision db.
Proof. solve_decision. Defined.

(** ** Exceptions *)

Inductive exn :=
| OperationalError (msg : string)   (* sqlite3.OperationalError *)
| IntegrityError (msg : string)     (* sqlite3.IntegrityError *)
| OtherException (msg : string).    (* any other subclass of Exception *)

(** [str(e)] *)
Definition exn_str (e : exn) : string :=
  match e with
  | OperationalError msg | IntegrityError msg | OtherException msg => msg
  end.

Inductive result (A : Type) :=
| Ok (a : A)
| Raise (e : exn).
Global Arguments Ok {A} a.
Global Arguments Raise {A} e.

(** ** Cursor helpers *)

(** [c.fetchone()]: the first row of the result set, or [None]. *)
Definition fetchone {A} (rows : list A) : option A := head rows.

(** [SELECT * FROM users WHERE username = ?] *)
Definition select_users (d : db) (username : string) : list user_row :=
  filter (λ r, u_username r = username) (users d).

(** [... FROM ideas WHERE username = ?] *)
Definition select_ideas (d : db) (username : string) : list idea_row :=
  filter (λ r, i_username r = username) (ideas d).

(** [SELECT id, timestamp, input, output]: the tuple the cursor yields. *)
Definition idea_columns (r : idea_row) : Z * string * string * string :=
  (i_id r, i_timestamp r, i_input r, i_output r).

(** [ORDER BY timestamp DESC]: [newer_first r1 r2] when [r1] may stand
    before [r2].  SQL leaves the order of rows with equal timestamps open;
    the merge sort below fixes one, and no statement depends on which. *)
Definition newer_first (r1 r2 : idea_row) : Prop :=
  String.le (i_timestamp r2) (i_timestamp r1).

Global Instance newer_first_dec : RelDecision newer_first.
Proof. intros r1 r2. unfold newer_first. apply _. Defined.

Definition order_by_timestamp_desc (rows : list idea_row) : list idea_row :=
  merge_sort newer_first rows.

(** The rowid SQLite gives a row inserted without one: one more than the
    largest rowid in the table, 1 in an empty table. *)
Definition next_rowid (rows : list idea_row) : Z :=
  1 + foldr (λ r acc, Z.max (i_id r) acc) 0 rows.

(** ** Substring test, Python's [needle in haystack] on [str] *)

Fixpoint str_contains (needle haystack : string) : bool :=
  String.prefix needle haystack ||
  match haystack with
  | EmptyString => false
  | String _ rest => str_contains needle rest
  end.

(** ** Schema migration *)




(** ** What a run of the script shows and calls *)

Inductive ui_event :=
| st_warning (body : string)
| st_info (body : string)
| st_error (body : string)
| st_success (body : string)
| st_subheader (body : string)
| st_markdown (body : string)
| st_spinner (text : string)
| st_dataframe (rows : list (string * string))
| st_expander (timestamp input output : string)
| st_sidebar_error (body : string)
| st_sidebar_success (body : string)
| models_generate_content (model contents : string)
| st_rerun.

Global Instance ui_event_eq_dec : EqDecision ui_event.
Proof. solve_decision. Defined.

Section App.

(** [hashlib.sha256(password.encode()).hexdigest()]: a function of the
    password alone. *)
Variable make_hashes : string → string.

Definition check_hashes (password hashed_text : string) : bool :=
  bool_decide (make_hashes password = hashed_text).

(** ** Credential store *)

Definition add_user (d : db) (username password : string) : result db :=
  let hashed_password := make_hashes password in
  match fetchone (select_users d username) with
  | Some _ => Raise (IntegrityError "UNIQUE constraint failed: users.username")
  | None =>
      Ok (Db (users d ++ [UserRow username hashed_password "free"]) (ideas d))
  end.

Definition login_user (d : db) (username password : string) : option string :=
  match fetchone (select_users d username) with
  | Some user_record =>
      if check_hashes password (u_password user_record)
      then Some (u_username user_record)
      else None
  | None => None
  end.

Definition get_user_plan (d : db) (username : string) : string :=
  match fetchone (select_users d username) with
  | Some result => u_plan result
  | None => "free"
  end.

(** [SET plan = "pro" WHERE username = ?] on one row.  No column is
    called pro, so SQLite reads the double-quoted word as the text 'pro'. *)
Definition set_pro (username : string) (r : user_row) : user_row :=
  if decide (u_username r = username)
  then UserRow (u_username r) (u_password r) "pro"
  else r.

Definition upgrade_user_plan (d : db) (username : string) : db :=
  Db (set_pro username <$> users d) (ideas d).

(** ** Idea store *)

(** [now] is the value of CURRENT_TIMESTAMP when the row is written. *)
Definition save_idea (now : string) (d : db)
    (username user_input ai_output : string) : db :=
  Db (users d)
     (ideas d ++ [IdeaRow (next_rowid (ideas d)) username user_input ai_output now]).

Definition get_user_ideas (d : db) (username : string)
    : list (Z * string * string * string) :=
  idea_columns <$> order_by_timestamp_desc (select_ideas d username).

Definition count_user_ideas (d : db) (username : string) : Z :=
  Z.of_nat (length (select_ideas d username)).

(** ** The collaborator and the page *)

(** [client.models.generate_content(model=..., contents=...)]: the text
    of the response, or the exception the client raised. *)
Variable generate_content : string → string → result string.

(** What the INSERT of [save_idea] and the commit after it raise when the
    row is written at time [now] into the store [d]: [None] when both go
    through, [Some e] when one of them raises [e] and the row is not
    there. *)
Variable save_raises : string → db → string → string → string → option exn.

Definition model_name : string := "gemini-2.5-flash".

Definition MAX_FREE_COUNT : Z := 5.

(** Python truth value of a [str]. *)
Definition truthy (s : string) : bool := bool_decide (s ≠ "").

(** *** Tab 1: the quota notice and [can_save] *)

Definition tab1_quota (user_plan : string) (saved_count : Z)
    : bool * list ui_event :=
  if decide (user_plan = "free") then
    if decide (saved_count >= MAX_FREE_COUNT) then
      (false,
       [st_warning ("💡 無料プランの上限（" +:+ pretty MAX_FREE_COUNT +:+
          "件）に達しました。深掘り質問は可能ですが、保存はされません。Pro版をご利用ください！")])
    else
      (true,
       [st_info ("💾 現在 " +:+ pretty saved_count +:+ "/" +:+
          pretty MAX_FREE_COUNT +:+ " 件のアイデアを保存中です。（無料プラン）")])
  else (true, []).

Definition can_save (user_plan : string) (saved_count : Z) : bool :=
  fst (tab1_quota user_plan saved_count).

(** *** Tab 1: the generation button *)

Definition newline : string := String (Ascii.ascii_of_nat 10) EmptyString.
Definition dquote : string := String (Ascii.ascii_of_nat 34) EmptyString.
Definition indent : string := "                    ".

Definition prompt_of (user_input : string) : string :=
  newline +:+ indent +:+
  "あなたは最高のブレインストーミングアシスタントです。" +:+
  newline +:+ indent +:+
  "ユーザーが入力した「アイデアの種」を、具体的で実用的な3つの深掘り質問に変換してください。" +:+
  newline +:+ indent +:+
  "質問は、ユーザーが自分の問題点を明確にしたり、解決策のヒントを見つけるのに役立つものでなければなりません。" +:+
  newline +:+ indent +:+
  "ユーザーの入力: " +:+ dquote +:+ user_input +:+ dquote +:+
  newline +:+ indent +:+
  "期待する出力形式: 1. 〇〇 2. 〇〇 3. 〇〇" +:+
  newline +:+ indent.

(** The body of [if st.button("深掘り質問を生成")], run when the button was
    pressed.  [st.rerun()] ends the run, so it is the last event.  The
    [try] holds the call of the collaborator and the call of [save_idea]:
    an exception of either is shown by [st.error], and nothing is stored. *)
Definition generate_button_tab1 (now : string) (d : db)
    (current_user : string) (can_save : bool) (user_input : string)
    : db * list ui_event :=
  if truthy user_input then
    let prompt := prompt_of user_input in
    let called :=
      [st_spinner "Geminiが思考中..."; models_generate_content model_name prompt] in
    match generate_content model_name prompt with
    | Ok response_text =>
        let shown :=
          called ++ [st_subheader "🤖 Geminiからの深掘り質問"; st_markdown response_text] in
        if can_save then
          match save_raises now d current_user user_input response_text with
          | None =>
              (save_idea now d current_user user_input response_text,
               shown ++ [st_success "アイデアと質問を保存しました！"; st_rerun])
          | Some e =>
              (d, shown ++ [st_error ("エラーが発生しました: " +:+ exn_str e)])
          end
        else
          (d, shown ++
              [st_info "保存数の上限を超えたため、今回は保存されませんでした。（Pro版へのアップグレードを推奨します）"])
    | Raise e =>
        (d, called ++ [st_error ("エラーが発生しました: " +:+ exn_str e)])
    end
  else (d, [st_warning "何か入力してください。"]).

(** *** Tab 2: the saved ideas *)

Definition tab2 (d : db) (current_user : string) : list ui_event :=
  let ideas := get_user_ideas d current_user in
  match ideas with
  | [] => [st_info "まだ保存されたアイデアはありません。"]
  | _ =>
      st_dataframe ((λ '(_, ts, inp, _), (ts, inp)) <$> ideas)
      :: ((λ '(_, ts, inp, out), st_expander ts inp out) <$> ideas)
  end.

(** *** Tab 3: the upgrade button *)

Definition tab3 (d : db) (current_user user_plan : string) (clicked : bool)
    : db * list ui_event :=
  if decide (user_plan = "free") then
    if clicked then
      (upgrade_user_plan d current_user,
       [st_success "🎉 Pro版にアップグレードされました！再起動しています..."; st_rerun])
    else (d, [])
  else
    (d, [st_success "✅ あなたは現在Pro版ユーザーです！すべての機能が無制限でご利用いただけます。"]).

(** *** The page of a logged-in user *)

Record page_input := PageInput {
  input_tab1 : string;            (* the text area of tab 1 *)
  generate_clicked : bool;        (* "深掘り質問を生成" *)
  upgrade_clicked : bool          (* "Pro版へアップグレードする (模擬決済)" *)
}.

Definition reruns (events : list ui_event) : bool :=
  bool_decide (last events = Some st_rerun).

(** One run of the script for [current_user]: the plan and the count are
    read from the store at the start of the run. *)
Definition logged_in_page (now : string) (d : db) (current_user : string)
    (w : page_input) : db * list ui_event :=
  let user_plan := get_user_plan d current_user in
  let saved_count := count_user_ideas d current_user in
  let '(can_save, notice) := tab1_quota user_plan saved_count in
  let '(d1, ev1) :=
    if generate_clicked w
    then generate_button_tab1 now d current_user can_save (input_tab1 w)
    else (d, []) in
  if reruns ev1 then (d1, notice ++ ev1)
  else
    let ev2 := tab2 d1 current_user in
    let '(d3, ev3) := tab3 d1 current_user user_plan (upgrade_clicked w) in
    (d3, notice ++ ev1 ++ ev2 ++ ev3).

(** *** The sidebar of a logged-out visitor *)

(** The login button; the first component is [st.session_state['logged_in_user']]. *)
Definition login_button (d : db) (logged_in_user : option string)
    (username password : string) : option string * list ui_event :=
  match login_user d username password with
  | Some user =>
      if truthy user then (Some user, [st_rerun])
      else (logged_in_user, [st_sidebar_error "ユーザー名またはパスワードが違います"])
  | None => (logged_in_user, [st_sidebar_error "ユーザー名またはパスワードが違います"])
  end.

(** The registration button. *)
Definition register_button (d : db) (new_user new_password : string)
    : db * list ui_event :=
  match add_user d new_user new_password with
  | Ok d' =>
      (d', [st_sidebar_success "ユーザー登録が完了しました！ログインしてください。"])
  | Raise (IntegrityError _) =>
      (d, [st_sidebar_error "そのユーザー名は既に使われています。"])
  | Raise e =>
      (d, [st_sidebar_error ("登録エラー: " +:+ exn_str e)])
  end.

(** ** Notions the statements use *)

(** [username] has a row in [users]. *)
Definition registered (d : db) (username : string) : Prop :=
  username ∈ (u_username <$> users d).

Global Instance registered_dec d username : Decision (registered d username).
Proof. unfold registered. apply _. Defined.

(** The password column of the row [login_user] reads. *)
Definition stored_hash (d : db) (username : string) : option string :=
  u_password <$> fetchone (select_users d username).

(** The primary key of [users]: no two rows share a username. *)
Definition users_unique (d : db) : Prop :=
  NoDup (u_username <$> users d).

(** The [timestamp] column of such a tuple. *)
Definition created_at (row : Z * string * string * string) : string :=
  row.1.1.2.

(** The recorded events hold no call of the collaborator. *)
Definition no_collaborator_call (events : list ui_event) : Prop :=
  ∀ model contents, models_generate_content model contents ∉ events.

(** A seed that is empty or has white space only. *)
Fixpoint blank (s : string) : bool :=
  match s with
  | EmptyString => true
  | String c rest => Ascii.is_space c && blank rest
  end.

(** A small store and collaborator to run the definitions on: one user
    on the free plan and no idea yet; a collaborator that always answers
    with three questions; a store whose writes go through; a stand-in
    for the digest. *)
Definition example_hash (password : string) : string := "sha256:" +:+ password.

Definition example_collaborator (model contents : string) : result string :=
  Ok "1. a 2. b 3. c".

Definition example_store_writes (now : string) (d : db)
    (username user_input ai_output : string) : option exn :=
  None.

Definition example_db : db :=
  Db [UserRow "alice" (example_hash "secret") "free"] [].

(** The store after each thing the script can do to it. *)
Inductive script_step : db → db → Prop :=
| step_register d new_user new_password :
    script_step d (register_button d new_user new_password).1
| step_page now d current_user w :
    script_step d (logged_in_page now d current_user w).1.

(** ** The sidebar of a visitor and the whole script *)

(** The widgets of the sidebar when nobody is logged in. *)
Record sidebar_input := SidebarInput {
  menu : string;                  (* the select box "メニュー" *)
  username_box : string;          (* "ユーザー名" *)
  password_box : string;          (* "パスワード" *)
  login_clicked : bool;           (* the button "ログイン" *)
  new_user_box : string;          (* "新しいユーザー名" *)
  new_password_box : string;      (* "新しいパスワード" *)
  register_clicked : bool         (* the button "登録" *)
}.

(** The warning at the foot of the visitor's page. *)
Definition visitor_notice : ui_event :=
  st_warning "機能を体験するには、サイドバーからログインまたはユーザー登録をしてください。".

(** The [else] branch of the script: the menu, the button of the chosen
    entry, then the warning unless the login has ended the run. *)
Definition logged_out_page (d : db) (logged_in_user : option string)
    (s : sidebar_input) : option string * db * list ui_event :=
  if decide (menu s = "ログイン") then
    if login_clicked s then
      let '(user, events) :=
        login_button d logged_in_user (username_box s) (password_box s) in
      if reruns events then (user, d, events)
      else (user, d, events ++ [visitor_notice])
    else (logged_in_user, d, [visitor_notice])
  else if decide (menu s = "ユーザー登録") then
    if register_clicked s then
      let '(d', events) :=
        register_button d (new_user_box s) (new_password_box s) in
      (logged_in_user, d', events ++ [visitor_notice])
    else (logged_in_user, d, [visitor_notice])
  else (logged_in_user, d, [visitor_notice]).

(** One run of the script.  [session_state] is [None] when
    [st.session_state] has no key 'logged_in_user', else the value under
    the key; the script first puts [None] under a missing key, then shows
    the page of the user when the value is true in Python's sense and the
    visitor's page otherwise. *)
Definition run_script (now : string) (session_state : option (option string))
    (d : db) (s : sidebar_input) (w : page_input)
    : option (option string) * db * list ui_event :=
  let logged_in_user :=
    match session_state with
    | None => None
    | Some value => value
    end in
  match logged_in_user with
  | Some current_user =>
      if truthy current_user then
        let '(d', events) := logged_in_page now d current_user w in
        (Some logged_in_user, d', events)
      else
        let '(user, d', events) := logged_out_page d logged_in_user s in
        (Some user, d', events)
  | None =>
      let '(user, d', events) := logged_out_page d logged_in_user s in
      (Some user, d', events)
  end.

(** The logout button's callback, [st.session_state.pop('logged_in_user')]:
    the state without the key, or [None] for the KeyError of a missing
    key. *)
Definition logout_callback (session_state : option (option string))
    : option (option (option string)) :=
  match session_state with
  | Some _ => Some None
  | None => None
  end.

(** The primary key of [ideas]: no two rows share an id. *)
Definition idea_ids_unique (d : db) : Prop :=
  NoDup (i_id <$> ideas d).

(** More stores to run the definitions on. *)
Definition example_db_bob : db :=
  Db [UserRow "alice" (example_hash "secret") "free";
      UserRow "bob" (example_hash "pw") "free"] [].

Definition example_db_full : db :=
  Db [UserRow "alice" (example_hash "secret") "free"]
     [IdeaRow 1 "alice" "a" "A" "2025-01-01 00:00:01";
      IdeaRow 2 "alice" "b" "B" "2025-01-01 00:00:02";
      IdeaRow 3 "alice" "c" "C" "2025-01-01 00:00:03";
      IdeaRow 4 "alice" "d" "D" "2025-01-01 00:00:04";
      IdeaRow 5 "alice" "e" "E" "2025-01-01 00:00:05"].

(** ** Lemmas on the cursor helpers *)

Global Instance newer_first_total : Total newer_first.
Proof. intros r1 r2. unfold newer_first. destruct (total String.le (i_timestamp r1) (i_timestamp r2)); auto. Qed.

Global Instance newer_first_trans : Transitive newer_first.
Proof. intros r1 r2 r3 H12 H23. unfold newer_first in *. by etrans. Qed.

Lemma fetchone_fmap {A B} (f : A → B) (rows : list A) :
  fetchone (f <$> rows) = f <$> fetchone rows.
Proof. by destruct rows. Qed.

Lemma fetchone_select_users d username r :
  fetchone (select_users d username) = Some r →
  r ∈ users d ∧ u_username r = username.
Proof.
  unfold fetchone, select_users. intros H.
  apply head_Some_elem_of in H. by apply list_elem_of_filter in H as [? ?].
Qed.

Lemma fetchone_select_users_None d username :
  fetchone (select_users d username) = None ↔ ¬ registered d username.
Proof.
  unfold fetchone, select_users, registered. rewrite head_None. split.
  - intros Hnil [r [-> Hr]]%list_elem_of_fmap.
    assert (r ∈ filter (λ r0, u_username r0 = u_username r) (users d)) as Hin
      by by apply list_elem_of_filter.
    rewrite Hnil in Hin. by apply not_elem_of_nil in Hin.
  - intros Hno. destruct (filter _ _) as [|r l] eqn:E; [done|].
    exfalso. apply Hno.
    assert (r ∈ filter (λ r0, u_username r0 = username) (users d)) as Hin
      by (rewrite E; left).
    apply list_elem_of_filter in Hin as [<- Hin]. apply list_elem_of_fmap. eauto.
Qed.

Lemma registered_fetchone d username :
  registered d username ↔ is_Some (fetchone (select_users d username)).
Proof.
  rewrite <- not_eq_None_Some, fetchone_select_users_None.
  split; [auto|]. intros H. by destruct (decide (registered d username)).
Qed.

(** Under the primary key the row [fetchone] finds is the only one. *)
Lemma stored_hash_unique d username r :
  users_unique d → r ∈ users d → u_username r = username →
  fetchone (select_users d username) = Some r.
Proof.
  unfold users_unique, fetchone, select_users. destruct d as [us rows]. simpl.
  induction us as [|r0 us IH]; intros Hnd Hin Hu.
  - by apply not_elem_of_nil in Hin.
  - rewrite fmap_cons in Hnd. apply NoDup_cons in Hnd as [Hnotin Hnd].
    rewrite filter_cons. apply elem_of_cons in Hin as [->|Hin].
    + by rewrite decide_True.
    + rewrite decide_False; [by apply IH|].
      intros Heq. apply Hnotin. rewrite Heq, <- Hu.
      apply list_elem_of_fmap. eauto.
Qed.

(** The script keeps the primary key: it only adds a row for a name
    that has none, and the upgrade leaves the names as they are. *)
Lemma users_unique_add_user d username password d' :
  add_user d username password = Ok d' → users_unique d → users_unique d'.
Proof.
  intros Hadd Hnd. destruct (decide (registered d username)) as [Hr|Hno].
  { unfold add_user in Hadd. apply registered_fetchone in Hr as [r Hr].
    by rewrite Hr in Hadd. }
  unfold add_user in Hadd.
  apply fetchone_select_users_None in Hno as Hnone. rewrite Hnone in Hadd.
  injection Hadd as <-. unfold users_unique in *. simpl.
  rewrite fmap_app. apply NoDup_app. split; [done|]. split.
  - intros x Hx [->|Hin%not_elem_of_nil]%elem_of_cons; done.
  - apply NoDup_singleton.
Qed.

Lemma users_unique_upgrade d username :
  users_unique d → users_unique (upgrade_user_plan d username).
Proof.
  unfold users_unique. simpl. rewrite <- list_fmap_compose.
  assert (u_username ∘ set_pro username <$> users d = u_username <$> users d)
    as ->; [|done].
  apply list_fmap_ext. intros _ r _. simpl. unfold set_pro. by case_decide.
Qed.

(** ** The quota policy (C1) *)

Lemma can_save_unfold user_plan saved_count :
  can_save user_plan saved_count =
  negb (bool_decide (user_plan = "free") && bool_decide (saved_count >= MAX_FREE_COUNT)).
Proof.
  unfold can_save, tab1_quota.
  destruct (decide (user_plan = "free")) as [->|Hne].
  - rewrite bool_decide_eq_true_2 by done.
    by destruct (decide (saved_count >= MAX_FREE_COUNT));
      [rewrite bool_decide_eq_true_2|rewrite bool_decide_eq_false_2].
  - by rewrite bool_decide_eq_false_2.
Qed.

(** C1.  In tab 1, for a user on the free plan with [k] stored ideas
    [can_save] is true exactly when [k < 5], the bound being
    [MAX_FREE_COUNT = 5]; for a user on the pro plan it is true for every
    [k].  The page computes it from the plan and the count it reads from
    the store. *)
Theorem can_save_free_iff_below_limit :
  MAX_FREE_COUNT = 5 ∧
  (∀ k : Z, can_save "free" k = true ↔ k < 5) ∧
  (∀ k : Z, can_save "pro" k = true) ∧
  (∀ (d : db) (current_user : string),
     (tab1_quota (get_user_plan d current_user)
                 (count_user_ideas d current_user)).1
     = can_save (get_user_plan d current_user) (count_user_ideas d current_user)).
Proof.
  split; [reflexivity|]. split; [|split].
  - intros k. rewrite can_save_unfold. unfold MAX_FREE_COUNT.
    rewrite bool_decide_eq_true_2 by done. simpl.
    rewrite negb_true_iff, bool_decide_eq_false. lia.
  - intros k. by rewrite can_save_unfold.
  - done.
Qed.

(** ** Authentication (C3, C8) *)

Lemma login_user_unfold d username password :
  login_user d username password =
  if bool_decide (stored_hash d username = Some (make_hashes password))
  then Some username else None.
Proof.
  unfold login_user, stored_hash, check_hashes.
  destruct (fetchone (select_users d username)) as [r|] eqn:E; simpl.
  - apply fetchone_select_users in E as [_ <-].
    repeat case_bool_decide; congruence.
  - done.
Qed.

Lemma stored_hash_registered d username h :
  stored_hash d username = Some h → registered d username.
Proof.
  unfold stored_hash. intros H. apply registered_fetchone.
  by destruct (fetchone (select_users d username)).
Qed.

(** The row [login_user] reads is the first row of [users] with the
    name, in the order of the table. *)
Lemma fetchone_select_users_first d username r :
  fetchone (select_users d username) = Some r ↔
  ∃ before after,
    users d = before ++ r :: after ∧
    (∀ r', r' ∈ before → u_username r' ≠ username) ∧
    u_username r = username.
Proof.
  unfold fetchone, select_users. destruct d as [us rows]. simpl.
  induction us as [|r0 us IH].
  - split; [done|]. intros (before & after & Heq & _). by destruct before.
  - rewrite filter_cons. destruct (decide (u_username r0 = username)) as [Hu|Hu].
    + simpl. split.
      * intros [= <-]. exists [], us. split; [done|]. split; [|done].
        intros r' Hin. by apply not_elem_of_nil in Hin.
      * intros ([|r1 before] & after & Heq & Hbefore & Hr).
        -- by injection Heq as ->.
        -- injection Heq as <- _. destruct (Hbefore r0); [left|done].
    + rewrite IH. split.
      * intros (before & after & -> & Hbefore & Hr).
        exists (r0 :: before), after. split; [done|]. split; [|done].
        intros r' [->|Hin]%elem_of_cons; auto.
      * intros ([|r1 before] & after & Heq & Hbefore & Hr).
        -- injection Heq as -> _. done.
        -- injection Heq as <- ->. exists before, after. split; [done|].
           split; [|done]. intros r' Hin. apply Hbefore. by right.
Qed.

Lemma login_user_row d username password :
  login_user d username password = Some username ↔
  ∃ r, fetchone (select_users d username) = Some r ∧
       u_password r = make_hashes password.
Proof.
  rewrite login_user_unfold. unfold stored_hash.
  destruct (fetchone (select_users d username)) as [r|]; simpl.
  - case_bool_decide as Hh.
    + split; [|done]. intros _. exists r. split; [done|]. congruence.
    + split; [done|]. intros (r' & [= <-] & Hp). congruence.
  - split; [done|]. by intros (r' & ? & _).
Qed.

(** C3.  [login_user d u p] returns the identity [u] exactly when [u] is
    registered and the hash of [p] is the hash stored for [u]; it returns
    [None] in every other case, and so for every password when [u] is not
    registered.  The hash stored for [u] is the password column of the
    first row of [users] with the name [u], which under the primary key
    is the only row with that name. *)
Theorem login_user_iff_hash_matches (d : db) (u p : string) :
  (login_user d u p = Some u ↔
     registered d u ∧ stored_hash d u = Some (make_hashes p)) ∧
  (login_user d u p ≠ Some u → login_user d u p = None) ∧
  (¬ registered d u → ∀ p' : string, login_user d u p' = None) ∧
  (login_user d u p = Some u ↔
     ∃ before r after,
       users d = before ++ r :: after ∧
       (∀ r', r' ∈ before → u_username r' ≠ u) ∧
       u_username r = u ∧
       u_password r = make_hashes p) ∧
  (users_unique d →
     (login_user d u p = Some u ↔
        ∃ r, r ∈ users d ∧ u_username r = u ∧ u_password r = make_hashes p)).
Proof.
  split; [|split; [|split; [|split]]].
  - rewrite login_user_unfold. case_bool_decide as H.
    + split; [|done]. eauto using stored_hash_registered.
    + split; [done|]. by intros [_ ?].
  - rewrite login_user_unfold. by case_bool_decide.
  - intros Hno p'. rewrite login_user_unfold. case_bool_decide as H; [|done].
    by apply stored_hash_registered in H.
  - rewrite login_user_row. split.
    + intros (r & (before & after & Heq & Hbefore & Hu)%fetchone_select_users_first & Hp).
      exists before, r, after. done.
    + intros (before & r & after & Heq & Hbefore & Hu & Hp).
      exists r. split; [|done]. apply fetchone_select_users_first. eauto.
  - intros Hunique. rewrite login_user_row. split.
    + intros (r & [Hin Hu]%fetchone_select_users & Hp). eauto.
    + intros (r & Hin & Hu & Hp). exists r. split; [|done].
      by apply stored_hash_unique.
Qed.

(** C8.  A run with a username that is not registered and a run with a
    registered username and a password whose hash is not the stored one
    get the same answer from [login_user], namely [None], and the login
    button then shows the same message and leaves the session as it was. *)
Theorem login_miss_and_mismatch_alike (d1 d2 : db) (u1 p1 u2 p2 : string)
    (logged_in_user : option string) :
  ¬ registered d1 u1 →
  registered d2 u2 →
  stored_hash d2 u2 ≠ Some (make_hashes p2) →
  login_user d1 u1 p1 = None ∧
  login_user d2 u2 p2 = None ∧
  login_user d1 u1 p1 = login_user d2 u2 p2 ∧
  login_button d1 logged_in_user u1 p1 = login_button d2 logged_in_user u2 p2.
Proof.
  intros Hmiss _ Hmismatch.
  assert (login_user d1 u1 p1 = None) as E1.
  { rewrite login_user_unfold. case_bool_decide as H; [|done].
    by apply stored_hash_registered in H. }
  assert (login_user d2 u2 p2 = None) as E2.
  { rewrite login_user_unfold. by case_bool_decide. }
  unfold login_button. by rewrite E1, E2.
Qed.

(** ** Registration (C4) *)

Lemma add_user_registered d username password :
  registered d username →
  add_user d username password
  = Raise (IntegrityError "UNIQUE constraint failed: users.username").
Proof.
  intros [r Hr]%registered_fetchone. unfold add_user. by rewrite Hr.
Qed.

Lemma add_user_fresh d username password :
  ¬ registered d username →
  add_user d username password
  = Ok (Db (users d ++ [UserRow username (make_hashes password) "free"]) (ideas d)).
Proof.
  intros Hno%fetchone_select_users_None. unfold add_user. by rewrite Hno.
Qed.

(** After a first registration the name is taken, with the hash of the
    first password and the free plan. *)
Lemma add_user_then_registered d username password d1 :
  add_user d username password = Ok d1 →
  registered d1 username ∧
  stored_hash d1 username = Some (make_hashes password) ∧
  get_user_plan d1 username = "free".
Proof.
  intros H. destruct (decide (registered d username)) as [Hr|Hno].
  { by rewrite add_user_registered in H. }
  rewrite add_user_fresh in H by done. injection H as <-.
  apply fetchone_select_users_None in Hno.
  unfold registered, stored_hash, get_user_plan, fetchone, select_users in *.
  simpl. rewrite filter_app, filter_cons, decide_True, filter_nil by done.
  apply head_None in Hno. rewrite Hno. simpl. split; [|done].
  rewrite fmap_app. apply elem_of_app. right. simpl. left.
Qed.

(** C4.  Registering a username that already has a row raises
    [IntegrityError], for which the registration button has a branch and a
    message of its own, apart from the one for any other exception; the
    store after the failed registration is the store before it, so the
    hash and the plan stored for the name are what they were. *)
Theorem register_existing_user_rejected (d : db) (u p : string) :
  registered d u →
  add_user d u p = Raise (IntegrityError "UNIQUE constraint failed: users.username") ∧
  register_button d u p = (d, [st_sidebar_error "そのユーザー名は既に使われています。"]) ∧
  (∀ e : exn, st_sidebar_error "そのユーザー名は既に使われています。"
              ≠ st_sidebar_error ("登録エラー: " +:+ exn_str e)) ∧
  stored_hash (register_button d u p).1 u = stored_hash d u ∧
  get_user_plan (register_button d u p).1 u = get_user_plan d u.
Proof.
  intros Hr. pose proof (add_user_registered d u p Hr) as E.
  assert (register_button d u p
          = (d, [st_sidebar_error "そのユーザー名は既に使われています。"])) as EB.
  { unfold register_button. by rewrite E. }
  rewrite EB. repeat split; done.
Qed.

(** ** The idea store (C5, C6, C10) *)

Lemma order_by_timestamp_desc_perm rows :
  order_by_timestamp_desc rows ≡ₚ rows.
Proof. apply merge_sort_Permutation. Qed.

Lemma order_by_timestamp_desc_sorted rows :
  StronglySorted newer_first (order_by_timestamp_desc rows).
Proof. apply (StronglySorted_merge_sort newer_first). Qed.

Lemma get_user_ideas_perm d username :
  get_user_ideas d username ≡ₚ idea_columns <$> select_ideas d username.
Proof. unfold get_user_ideas. by rewrite order_by_timestamp_desc_perm. Qed.

Lemma elem_of_get_user_ideas d username row :
  row ∈ get_user_ideas d username ↔
  ∃ r, r ∈ ideas d ∧ i_username r = username ∧ row = idea_columns r.
Proof.
  rewrite get_user_ideas_perm, list_elem_of_fmap. unfold select_ideas. split.
  - intros (r & -> & [Hu Hr]%list_elem_of_filter). eauto.
  - intros (r & Hr & Hu & ->). exists r. split; [done|].
    by apply list_elem_of_filter.
Qed.

(** C5.  After [save_idea] for [u] with [inp] and [out], the list
    [get_user_ideas] returns for [u] has an entry whose input is [inp] and
    whose output is [out] (its id is the fresh rowid and its timestamp the
    time of the write). *)
Theorem save_idea_then_listed (now : string) (d : db) (u inp out : string) :
  (next_rowid (ideas d), now, inp, out)
    ∈ get_user_ideas (save_idea now d u inp out) u ∧
  ∃ row, row ∈ get_user_ideas (save_idea now d u inp out) u ∧
         row.1.2 = inp ∧ row.2 = out.
Proof.
  assert ((next_rowid (ideas d), now, inp, out)
            ∈ get_user_ideas (save_idea now d u inp out) u) as Hin.
  { apply elem_of_get_user_ideas.
    exists (IdeaRow (next_rowid (ideas d)) u inp out now). simpl.
    split; [|done]. apply elem_of_app. right. left. }
  split; [done|]. eauto.
Qed.

(** C6.  [get_user_ideas d u] returns exactly the rows of [ideas] whose
    username is [u] (each as often as it is stored), with timestamps in
    non-increasing order, and the empty list when no row has username
    [u]. *)
Theorem get_user_ideas_owned_newest_first (d : db) (u : string) :
  (∀ row, row ∈ get_user_ideas d u →
     ∃ r, r ∈ ideas d ∧ i_username r = u ∧ row = idea_columns r) ∧
  get_user_ideas d u
    ≡ₚ idea_columns <$> filter (λ r, i_username r = u) (ideas d) ∧
  StronglySorted (λ row1 row2, String.le (created_at row2) (created_at row1))
    (get_user_ideas d u) ∧
  ((∀ r, r ∈ ideas d → i_username r ≠ u) → get_user_ideas d u = []).
Proof.
  split; [|split; [|split]].
  - intros row. by rewrite elem_of_get_user_ideas.
  - apply get_user_ideas_perm.
  - unfold get_user_ideas.
    apply StronglySorted_fmap with (R1 := newer_first);
      [done|apply order_by_timestamp_desc_sorted].
  - intros Hnone. destruct (get_user_ideas d u) as [|row l] eqn:E; [done|].
    assert (row ∈ get_user_ideas d u) as Hin by (rewrite E; left).
    apply elem_of_get_user_ideas in Hin as (r & Hr & Hu & _).
    by destruct (Hnone r Hr).
Qed.

(** C10.  The count the quota check uses is the length of the list the
    history tab shows. *)
Theorem count_user_ideas_is_length (d : db) (u : string) :
  count_user_ideas d u = Z.of_nat (length (get_user_ideas d u)).
Proof.
  unfold count_user_ideas.
  by rewrite get_user_ideas_perm, length_fmap.
Qed.

(** ** The upgrade (C7) *)

Lemma set_pro_username username r : u_username (set_pro username r) = u_username r.
Proof. unfold set_pro. by case_decide. Qed.

Lemma upgrade_user_plan_users d username :
  users (upgrade_user_plan d username) = set_pro username <$> users d.
Proof. done. Qed.

Lemma select_users_upgrade d v username :
  select_users (upgrade_user_plan d v) username
  = set_pro v <$> select_users d username.
Proof.
  unfold select_users. rewrite upgrade_user_plan_users.
  induction (users d) as [|r l IH]; [done|].
  rewrite fmap_cons, !filter_cons, set_pro_username.
  case_decide; [rewrite fmap_cons|]; by rewrite IH.
Qed.

Lemma get_user_plan_upgrade d username :
  registered d username →
  get_user_plan (upgrade_user_plan d username) username = "pro".
Proof.
  intros [r Hr]%registered_fetchone. unfold get_user_plan.
  rewrite select_users_upgrade, fetchone_fmap, Hr. simpl.
  apply fetchone_select_users in Hr as [_ Hu]. unfold set_pro.
  by rewrite decide_True.
Qed.

Lemma upgrade_user_plan_twice d username :
  upgrade_user_plan (upgrade_user_plan d username) username
  = upgrade_user_plan d username.
Proof.
  unfold upgrade_user_plan. simpl. f_equal.
  rewrite <- list_fmap_compose. apply list_fmap_ext. intros _ r _. simpl.
  unfold set_pro at 1. rewrite set_pro_username.
  destruct (decide (u_username r = username)) as [E|E]; [|done].
  unfold set_pro. by rewrite decide_True.
Qed.

(** The plan of a pro user stays pro whatever is written next. *)
Lemma pro_after_upgrade d v username :
  get_user_plan d username = "pro" →
  get_user_plan (upgrade_user_plan d v) username = "pro".
Proof.
  unfold get_user_plan. rewrite select_users_upgrade, fetchone_fmap.
  destruct (fetchone (select_users d username)) as [r|]; [|done].
  simpl. intros Hp. unfold set_pro. by case_decide.
Qed.

Lemma pro_after_add_user d v password d' username :
  add_user d v password = Ok d' →
  get_user_plan d username = "pro" →
  get_user_plan d' username = "pro".
Proof.
  intros Hadd. destruct (decide (registered d v)) as [Hr|Hno].
  { by rewrite add_user_registered in Hadd. }
  rewrite add_user_fresh in Hadd by done. injection Hadd as <-.
  unfold get_user_plan, fetchone, select_users. simpl. rewrite filter_app.
  by destruct (filter _ (users d)).
Qed.

Lemma generate_button_tab1_cases now d current_user can_save user_input :
  let res := generate_button_tab1 now d current_user can_save user_input in
  (res.1 = d ∧ reruns res.2 = false) ∨
  (∃ out, res.1 = save_idea now d current_user user_input out ∧
          reruns res.2 = true).
Proof.
  unfold generate_button_tab1.
  destruct (truthy user_input); [|by left].
  destruct (generate_content _ _) as [out|e]; [|by left].
  destruct can_save; [|by left].
  destruct (save_raises _ _ _ _ _); [by left|].
  right. exists out. split; [done|]. simpl. done.
Qed.

Lemma tab3_cases d current_user user_plan clicked :
  (tab3 d current_user user_plan clicked).1 = d ∨
  (tab3 d current_user user_plan clicked).1 = upgrade_user_plan d current_user.
Proof.
  unfold tab3. case_decide; [|by left]. destruct clicked; [by right|by left].
Qed.

Lemma script_step_cases d d' :
  script_step d d' →
  d' = d ∨
  (∃ now u inp out, d' = save_idea now d u inp out) ∨
  (∃ u, d' = upgrade_user_plan d u) ∨
  (∃ u p, add_user d u p = Ok d').
Proof.
  intros [d0 nu np | now d0 cu w].
  - unfold register_button.
    destruct (add_user d0 nu np) as [d1|e] eqn:E; simpl.
    + right. right. right. eauto.
    + left. by destruct e.
  - unfold logged_in_page.
    destruct (tab1_quota _ _) as [cs notice].
    pose proof (tab3_cases d0 cu (get_user_plan d0 cu) (upgrade_clicked w)) as H3.
    destruct (generate_clicked w).
    + pose proof (generate_button_tab1_cases now d0 cu cs (input_tab1 w)) as Hp.
      destruct (generate_button_tab1 _ _ _ _ _) as [d1 ev1]. simpl in Hp.
      destruct Hp as [[-> ->] | (out & -> & ->)].
      * destruct (tab3 _ _ _ _) as [d3 ev3]. simpl in *.
        destruct H3 as [-> | ->]; [by left|]. right. right. left. eauto.
      * right. left. simpl. eauto 6.
    + change (reruns []) with false. cbv iota.
      destruct (tab3 _ _ _ _) as [d3 ev3]. simpl in *.
      destruct H3 as [-> | ->]; [by left|]. right. right. left. eauto.
Qed.

Lemma pro_after_script_step d d' username :
  script_step d d' →
  get_user_plan d username = "pro" → get_user_plan d' username = "pro".
Proof.
  intros Hstep%script_step_cases Hp.
  destruct Hstep as [-> | [(now & u & inp & out & ->) | [[u ->] | (u & p & Hadd)]]].
  - done.
  - done.
  - by apply pro_after_upgrade.
  - by eapply pro_after_add_user.
Qed.

Lemma pro_after_script_steps d d' username :
  rtc script_step d d' →
  get_user_plan d username = "pro" → get_user_plan d' username = "pro".
Proof. induction 1; eauto using pro_after_script_step. Qed.

(** C7.  For a registered user, [upgrade_user_plan] called once or twice
    leaves the stored plan equal to "pro" (the second call changes
    nothing), and in every store the script reaches afterwards the plan
    read for the user is "pro", so [can_save] is true there for every
    count. *)
Theorem upgrade_user_plan_idempotent (d : db) (u : string) :
  registered d u →
  get_user_plan (upgrade_user_plan d u) u = "pro" ∧
  upgrade_user_plan (upgrade_user_plan d u) u = upgrade_user_plan d u ∧
  get_user_plan (upgrade_user_plan (upgrade_user_plan d u) u) u = "pro" ∧
  (∀ d', rtc script_step (upgrade_user_plan d u) d' →
     get_user_plan d' u = "pro" ∧
     ∀ k : Z, can_save (get_user_plan d' u) k = true).
Proof.
  intros Hr. pose proof (get_user_plan_upgrade d u Hr) as Hpro.
  split; [done|]. split; [apply upgrade_user_plan_twice|].
  split; [by rewrite upgrade_user_plan_twice|].
  intros d' Hsteps.
  pose proof (pro_after_script_steps _ _ u Hsteps Hpro) as Hp.
  split; [done|]. intros k. by rewrite Hp, can_save_unfold.
Qed.

(** ** The schema migration (C9) *)





(** ** The generation button (C2) *)

Lemma truthy_nonempty s : s ≠ "" → truthy s = true.
Proof. intros H. unfold truthy. by rewrite bool_decide_eq_true_2. Qed.

(** C2, as the code has it.  An empty seed is turned down before any call
    of the collaborator: the only event is the warning, the store is the
    one before, and so is the count of the user.  Every seed that is not
    empty, one of white space only included, is sent to the collaborator. *)
Theorem empty_seed_rejected (now : string) (d : db) (current_user : string)
    (cs : bool) :
  generate_button_tab1 now d current_user cs ""
    = (d, [st_warning "何か入力してください。"]) ∧
  no_collaborator_call (generate_button_tab1 now d current_user cs "").2 ∧
  count_user_ideas (generate_button_tab1 now d current_user cs "").1 current_user
    = count_user_ideas d current_user ∧
  (∀ user_input : string, user_input ≠ "" →
     models_generate_content model_name (prompt_of user_input)
       ∈ (generate_button_tab1 now d current_user cs user_input).2).
Proof.
  split; [done|]. split; [|split; [done|]].
  - intros model contents Hin. simpl in Hin.
    apply list_elem_of_singleton in Hin. discriminate Hin.
  - intros user_input Hne. unfold generate_button_tab1.
    rewrite truthy_nonempty by done.
    destruct (generate_content _ _) as [out|e];
      [destruct cs; [destruct (save_raises _ _ _ _ _)|]|]; simpl;
      right; left.
Qed.

(** What the button does with a seed the collaborator answers: the pair
    is stored exactly when [can_save] holds, and then the count of the
    user grows by one. *)
Lemma generate_button_tab1_answered now d current_user cs user_input out :
  user_input ≠ "" →
  generate_content model_name (prompt_of user_input) = Ok out →
  save_raises now d current_user user_input out = None →
  (generate_button_tab1 now d current_user cs user_input).1
  = if cs then save_idea now d current_user user_input out else d.
Proof.
  intros Hne Hout Hsave. unfold generate_button_tab1.
  rewrite truthy_nonempty, Hout, Hsave by done. by destruct cs.
Qed.

Lemma count_user_ideas_save_idea now d username user_input out :
  count_user_ideas (save_idea now d username user_input out) username
  = count_user_ideas d username + 1.
Proof.
  unfold count_user_ideas, select_ideas. simpl.
  rewrite filter_app, filter_cons, decide_True, filter_nil by done.
  rewrite length_app. simpl. lia.
Qed.

(** ** More on the credential store *)

Lemma login_user_select d1 d2 username password :
  (λ r, (u_username r, u_password r)) <$> fetchone (select_users d1 username)
  = (λ r, (u_username r, u_password r)) <$> fetchone (select_users d2 username) →
  login_user d1 username password = login_user d2 username password.
Proof.
  unfold login_user.
  destruct (fetchone (select_users d1 username)) as [r1|],
           (fetchone (select_users d2 username)) as [r2|]; simpl; try done.
  by intros [= -> ->].
Qed.

Lemma select_users_add_other d username password d1 other :
  add_user d username password = Ok d1 → other ≠ username →
  select_users d1 other = select_users d other.
Proof.
  intros Hadd Hne. unfold add_user in Hadd.
  destruct (fetchone (select_users d username)); [done|].
  injection Hadd as <-. unfold select_users. simpl.
  rewrite filter_app, filter_cons, decide_False, filter_nil by (simpl; congruence).
  apply app_nil_r.
Qed.

(** A registration followed by a login: the new account opens with the
    password it was made with, with no password of another digest, and it
    is on the free plan. *)
Theorem register_then_login (d : db) (u p : string) (d1 : db) :
  add_user d u p = Ok d1 →
  login_user d1 u p = Some u ∧
  (∀ p' : string, make_hashes p' ≠ make_hashes p → login_user d1 u p' = None) ∧
  get_user_plan d1 u = "free".
Proof.
  intros (Hr & Hh & Hp)%add_user_then_registered.
  split; [|split; [|done]].
  - rewrite login_user_unfold, Hh. by rewrite bool_decide_eq_true_2.
  - intros p' Hne. rewrite login_user_unfold, Hh.
    rewrite bool_decide_eq_false_2; [done|]. congruence.
Qed.

(** A registration that goes through took a name that had no row, and
    leaves the ideas and every other account as they were. *)
Theorem add_user_keeps_others (d : db) (u p : string) (d1 : db) :
  add_user d u p = Ok d1 →
  ¬ registered d u ∧
  ideas d1 = ideas d ∧
  (∀ u' p' : string, u' ≠ u → login_user d1 u' p' = login_user d u' p') ∧
  (∀ u' : string, u' ≠ u → get_user_plan d1 u' = get_user_plan d u').
Proof.
  intros Hadd.
  assert (¬ registered d u) as Hno.
  { intros Hr. by rewrite add_user_registered in Hadd. }
  split; [done|]. split; [|split].
  - rewrite add_user_fresh in Hadd by done. by injection Hadd as <-.
  - intros u' p' Hne. apply login_user_select.
    by rewrite (select_users_add_other _ _ _ _ _ Hadd Hne).
  - intros u' Hne. unfold get_user_plan.
    by rewrite (select_users_add_other _ _ _ _ _ Hadd Hne).
Qed.

(** The upgrade of a name that has no row changes nothing: the store is
    the same and the plan read for the name is still the default. *)
Theorem upgrade_unregistered_noop (d : db) (u : string) :
  ¬ registered d u →
  upgrade_user_plan d u = d ∧
  get_user_plan (upgrade_user_plan d u) u = "free".
Proof.
  intros Hno.
  assert (upgrade_user_plan d u = d) as ->.
  { destruct d as [us rows]. unfold upgrade_user_plan, registered in *.
    simpl in *. f_equal. rewrite <- (list_fmap_id us) at 2.
    apply list_fmap_ext. intros i r Hi. unfold set_pro.
    rewrite decide_False; [done|]. intros Hu. apply Hno.
    apply list_elem_of_fmap. exists r. split; [done|].
    by eapply list_elem_of_lookup_2. }
  split; [done|]. unfold get_user_plan.
  apply fetchone_select_users_None in Hno. by rewrite Hno.
Qed.

Lemma login_user_upgrade d v username password :
  login_user (upgrade_user_plan d v) username password
  = login_user d username password.
Proof.
  apply login_user_select. rewrite select_users_upgrade, fetchone_fmap.
  destruct (fetchone (select_users d username)) as [r|]; [|done]. simpl.
  unfold set_pro. by case_decide.
Qed.

Lemma get_user_plan_upgrade_other d v username :
  username ≠ v →
  get_user_plan (upgrade_user_plan d v) username = get_user_plan d username.
Proof.
  intros Hne. unfold get_user_plan.
  rewrite select_users_upgrade, fetchone_fmap.
  destruct (fetchone (select_users d username)) as [r|] eqn:E; [|done]. simpl.
  apply fetchone_select_users in E as [_ Hu]. unfold set_pro.
  rewrite decide_False; [done|]. congruence.
Qed.

(** The upgrade touches one column of one account: the ideas, every
    login and the plan of every other user stay as they were. *)
Theorem upgrade_user_plan_keeps_rest (d : db) (u : string) :
  ideas (upgrade_user_plan d u) = ideas d ∧
  (∀ u' p : string,
     login_user (upgrade_user_plan d u) u' p = login_user d u' p) ∧
  (∀ u' : string, u' ≠ u →
     get_user_plan (upgrade_user_plan d u) u' = get_user_plan d u').
Proof.
  split; [done|]. split.
  - intros u' p. apply login_user_upgrade.
  - intros u' Hne. by apply get_user_plan_upgrade_other.
Qed.

(** ** More on the idea store *)

Lemma select_ideas_save_idea now d username user_input out other :
  select_ideas (save_idea now d username user_input out) other
  = select_ideas d other ++
    (if decide (username = other)
     then [IdeaRow (next_rowid (ideas d)) username user_input out now]
     else []).
Proof.
  unfold select_ideas. simpl. rewrite filter_app, filter_cons, filter_nil.
  simpl. by repeat case_decide.
Qed.

Lemma select_ideas_save_other now d username user_input out other :
  other ≠ username →
  select_ideas (save_idea now d username user_input out) other
  = select_ideas d other.
Proof.
  intros Hne.
  by rewrite select_ideas_save_idea, decide_False, app_nil_r.
Qed.

(** [save_idea] adds one entry to the list of its user and nothing else:
    the list is the old one with the new tuple, the count is one more,
    the lists and counts of all other users and the table of users are
    the same. *)
Theorem save_idea_adds_one (now : string) (d : db) (u inp out : string) :
  get_user_ideas (save_idea now d u inp out) u
    ≡ₚ (next_rowid (ideas d), now, inp, out) :: get_user_ideas d u ∧
  count_user_ideas (save_idea now d u inp out) u = count_user_ideas d u + 1 ∧
  (∀ u' : string, u' ≠ u →
     get_user_ideas (save_idea now d u inp out) u' = get_user_ideas d u' ∧
     count_user_ideas (save_idea now d u inp out) u' = count_user_ideas d u') ∧
  users (save_idea now d u inp out) = users d.
Proof.
  split; [|split; [|split; [|done]]].
  - rewrite !get_user_ideas_perm, select_ideas_save_idea, decide_True by done.
    rewrite fmap_app. simpl. by rewrite <- Permutation_cons_append.
  - apply count_user_ideas_save_idea.
  - intros u' Hne. unfold get_user_ideas, count_user_ideas.
    by rewrite select_ideas_save_other.
Qed.

Lemma next_rowid_above rows r : r ∈ rows → i_id r < next_rowid rows.
Proof.
  unfold next_rowid. induction rows as [|r0 rows IH]; intros Hin.
  - by apply not_elem_of_nil in Hin.
  - simpl. apply elem_of_cons in Hin as [->|Hin]; [lia|].
    specialize (IH Hin). lia.
Qed.

(** ** More on the generation button *)

(** Whether the press stores anything: the store changes exactly when
    the seed is not empty, the collaborator answered, [can_save] is set
    and the write went through; then the store is the one [save_idea]
    gives and the count of the user is one more; in every other case the
    store is the one before. *)
Theorem generate_stores_iff (now : string) (d : db) (current_user : string)
    (cs : bool) (user_input : string) :
  let after := (generate_button_tab1 now d current_user cs user_input).1 in
  (after ≠ d ↔
     user_input ≠ "" ∧ cs = true ∧
     ∃ out, generate_content model_name (prompt_of user_input) = Ok out ∧
            save_raises now d current_user user_input out = None) ∧
  (∀ out, user_input ≠ "" → cs = true →
     generate_content model_name (prompt_of user_input) = Ok out →
     save_raises now d current_user user_input out = None →
     after = save_idea now d current_user user_input out ∧
     count_user_ideas after current_user = count_user_ideas d current_user + 1) ∧
  (after = d ∨ ∃ out, after = save_idea now d current_user user_input out).
Proof.
  simpl.
  assert (∀ out, save_idea now d current_user user_input out ≠ d) as Hsave.
  { intros out Heq.
    pose proof (count_user_ideas_save_idea now d current_user user_input out) as Hc.
    rewrite Heq in Hc. lia. }
  unfold generate_button_tab1, truthy. case_bool_decide as Hne; simpl.
  - destruct (generate_content _ _) as [out|e] eqn:Hout;
      [destruct cs; [destruct (save_raises _ _ _ _ _) as [e|] eqn:Hw|]|]; simpl.
    + split; [|split; [|by left]].
      * split; [done|]. intros (_ & _ & out' & [= <-] & Hw'). congruence.
      * intros out' _ _ [= <-] Hw'. congruence.
    + split; [|split; [|right; eauto]].
      * split; [eauto 6|]. intros _. apply Hsave.
      * intros out' _ _ [= <-] _. split; [done|].
        apply count_user_ideas_save_idea.
    + split; [|split; [|by left]].
      * split; [done|]. by intros (_ & ? & _).
      * by intros out' _ ?.
    + split; [|split; [|by left]].
      * split; [done|]. by intros (_ & _ & out & ? & _).
      * by intros out' _ _ ?.
  - split; [|split; [|by left]].
    + split; [done|]. intros (Hne' & _). by destruct Hne'.
    + intros out Hne'. by destruct Hne'.
Qed.

(** What the press shows for a seed that is not empty.  An answer of the
    collaborator is shown whether or not it is stored, and after it an
    error is shown exactly when the answer was to be stored and the write
    raised: then the error has the text of that exception, nothing is
    stored and the run goes on.  When the collaborator raises, the only
    message is the error with the text of its exception, and nothing is
    stored. *)
Theorem generate_shows_answer_or_error (now : string) (d : db)
    (current_user : string) (cs : bool) (user_input : string) :
  user_input ≠ "" →
  (∀ out, generate_content model_name (prompt_of user_input) = Ok out →
     st_markdown out ∈ (generate_button_tab1 now d current_user cs user_input).2 ∧
     ((∃ body, st_error body
          ∈ (generate_button_tab1 now d current_user cs user_input).2) ↔
      cs = true ∧
      ∃ e, save_raises now d current_user user_input out = Some e)) ∧
  (∀ out e, generate_content model_name (prompt_of user_input) = Ok out →
     cs = true →
     save_raises now d current_user user_input out = Some e →
     generate_button_tab1 now d current_user cs user_input
     = (d, [st_spinner "Geminiが思考中...";
            models_generate_content model_name (prompt_of user_input);
            st_subheader "🤖 Geminiからの深掘り質問";
            st_markdown out;
            st_error ("エラーが発生しました: " +:+ exn_str e)])) ∧
  (∀ e, generate_content model_name (prompt_of user_input) = Raise e →
     generate_button_tab1 now d current_user cs user_input
     = (d, [st_spinner "Geminiが思考中...";
            models_generate_content model_name (prompt_of user_input);
            st_error ("エラーが発生しました: " +:+ exn_str e)])).
Proof.
  intros Hne. unfold generate_button_tab1. rewrite truthy_nonempty by done.
  split; [|split].
  - intros out ->.
    destruct cs; [destruct (save_raises _ _ _ _ _) as [e|] eqn:Hw|]; simpl;
      (split; [do 3 right; left|]).
    + split; [eauto|]. intros _. eexists. do 4 right. left.
    + split; [|by intros (_ & e & ?)]. intros [body Hin].
      repeat (apply elem_of_cons in Hin as [Hin|Hin]; [done|]).
      by apply not_elem_of_nil in Hin.
    + split; [|by intros (? & _)]. intros [body Hin].
      repeat (apply elem_of_cons in Hin as [Hin|Hin]; [done|]).
      by apply not_elem_of_nil in Hin.
  - by intros out e -> -> ->.
  - by intros e ->.
Qed.

(** ** The page of a logged-in user, as a whole *)

Lemma generate_button_tab1_store now d current_user cs user_input :
  let res := generate_button_tab1 now d current_user cs user_input in
  (res.1 = d ∧ reruns res.2 = false) ∨
  (∃ out, res.1 = save_idea now d current_user user_input out ∧
          reruns res.2 = true ∧ cs = true ∧ user_input ≠ "" ∧
          generate_content model_name (prompt_of user_input) = Ok out ∧
          save_raises now d current_user user_input out = None).
Proof.
  unfold generate_button_tab1, truthy. case_bool_decide as Hne; [|by left].
  destruct (generate_content _ _) as [out|e] eqn:Hout; [|by left].
  destruct cs; [|by left].
  destruct (save_raises _ _ _ _ _) eqn:Hw; [by left|].
  right. exists out. by repeat split.
Qed.

Lemma tab3_store d current_user user_plan clicked :
  (tab3 d current_user user_plan clicked).1 = d ∨
  ((tab3 d current_user user_plan clicked).1 = upgrade_user_plan d current_user ∧
   clicked = true ∧ user_plan = "free").
Proof.
  unfold tab3. case_decide; [|by left]. destruct clicked; [by right|by left].
Qed.

(** The three things a run of the page can do to the store. *)
Lemma logged_in_page_store now d current_user w :
  let d' := (logged_in_page now d current_user w).1 in
  d' = d ∨
  (∃ out, d' = save_idea now d current_user (input_tab1 w) out ∧
          generate_clicked w = true ∧ input_tab1 w ≠ "" ∧
          generate_content model_name (prompt_of (input_tab1 w)) = Ok out ∧
          can_save (get_user_plan d current_user)
                   (count_user_ideas d current_user) = true) ∨
  (d' = upgrade_user_plan d current_user ∧ upgrade_clicked w = true ∧
   get_user_plan d current_user = "free").
Proof.
  simpl. unfold logged_in_page, can_save.
  destruct (tab1_quota _ _) as [cs notice]. simpl.
  pose proof (tab3_store d current_user (get_user_plan d current_user)
                (upgrade_clicked w)) as H3.
  destruct (generate_clicked w).
  - pose proof (generate_button_tab1_store now d current_user cs (input_tab1 w)) as Hp.
    destruct (generate_button_tab1 _ _ _ _ _) as [d1 ev1]. simpl in Hp.
    destruct Hp as [[-> ->] | (out & -> & -> & -> & Hne & Hout & _)].
    + destruct (tab3 _ _ _ _) as [d3 ev3]. simpl in *.
      destruct H3 as [-> | (-> & ? & ?)]; [by left|]. by right; right.
    + right. left. exists out. by repeat split.
  - change (reruns []) with false. cbv iota.
    destruct (tab3 _ _ _ _) as [d3 ev3]. simpl in *.
    destruct H3 as [-> | (-> & ? & ?)]; [by left|]. by right; right.
Qed.

(** A run of the page for one user leaves every login as it was and
    does not touch the ideas or the plan of any other user. *)
Theorem logged_in_page_own_rows_only (now : string) (d : db)
    (current_user : string) (w : page_input) :
  (∀ u p : string,
     login_user (logged_in_page now d current_user w).1 u p = login_user d u p) ∧
  (∀ u : string, u ≠ current_user →
     get_user_ideas (logged_in_page now d current_user w).1 u = get_user_ideas d u ∧
     get_user_plan (logged_in_page now d current_user w).1 u = get_user_plan d u).
Proof.
  destruct (logged_in_page_store now d current_user w)
    as [-> | [(out & -> & _) | (-> & _)]]; [done| |].
  - split; [done|]. intros u Hne. split; [|done].
    unfold get_user_ideas. by rewrite select_ideas_save_other.
  - split; [intros u p; apply login_user_upgrade|].
    intros u Hne. split; [done|]. by apply get_user_plan_upgrade_other.
Qed.

(** A free user at the limit: whatever is pressed on the page, no idea
    is added, and an answer of the collaborator is shown all the same. *)
Theorem page_at_limit_saves_nothing (now : string) (d : db)
    (current_user : string) (w : page_input) :
  get_user_plan d current_user = "free" →
  MAX_FREE_COUNT ≤ count_user_ideas d current_user →
  ideas (logged_in_page now d current_user w).1 = ideas d ∧
  (∀ out, generate_clicked w = true → input_tab1 w ≠ "" →
     generate_content model_name (prompt_of (input_tab1 w)) = Ok out →
     st_markdown out ∈ (logged_in_page now d current_user w).2).
Proof.
  intros Hfree Hfull. split.
  - destruct (logged_in_page_store now d current_user w)
      as [-> | [(out & -> & _ & _ & _ & Hcs) | (-> & _)]]; [done| |done].
    rewrite Hfree, can_save_unfold in Hcs.
    rewrite bool_decide_eq_true_2, (bool_decide_eq_true_2 (_ >= _)) in Hcs
      by (done || lia).
    done.
  - intros out Hclick Hne Hout. unfold logged_in_page.
    assert (tab1_quota (get_user_plan d current_user)
              (count_user_ideas d current_user)
            = (false, (tab1_quota (get_user_plan d current_user)
                         (count_user_ideas d current_user)).2)) as ->.
    { rewrite Hfree. unfold tab1_quota. rewrite decide_True by done.
      by rewrite decide_True by lia. }
    rewrite Hclick. unfold generate_button_tab1.
    rewrite truthy_nonempty, Hout by done.
    change (reruns _) with false. cbv iota.
    destruct (tab3 _ _ _ _) as [d3 ev3]. simpl.
    apply elem_of_app. right. do 3 right. left.
Qed.

(** A user who may save: when the button is pressed on a seed that is not
    empty, the collaborator answers and the write goes through, the pair
    is stored, the count is one more, and the run ends with
    [st.rerun()]. *)
Theorem page_below_limit_saves (now : string) (d : db)
    (current_user : string) (w : page_input) (out : string) :
  can_save (get_user_plan d current_user) (count_user_ideas d current_user) = true →
  generate_clicked w = true →
  input_tab1 w ≠ "" →
  generate_content model_name (prompt_of (input_tab1 w)) = Ok out →
  save_raises now d current_user (input_tab1 w) out = None →
  (logged_in_page now d current_user w).1
    = save_idea now d current_user (input_tab1 w) out ∧
  count_user_ideas (logged_in_page now d current_user w).1 current_user
    = count_user_ideas d current_user + 1 ∧
  last (logged_in_page now d current_user w).2 = Some st_rerun.
Proof.
  intros Hcs Hclick Hne Hout Hw.
  assert ((logged_in_page now d current_user w).1
          = save_idea now d current_user (input_tab1 w) out ∧
          last (logged_in_page now d current_user w).2 = Some st_rerun) as [E1 E2].
  { unfold logged_in_page. unfold can_save in Hcs.
    destruct (tab1_quota _ _) as [cs notice]. simpl in Hcs. subst cs.
    rewrite Hclick. unfold generate_button_tab1.
    rewrite truthy_nonempty, Hout, Hw by done.
    change (reruns _) with true. cbv iota. simpl. split; [done|].
    by rewrite last_app. }
  split; [done|]. split; [|done].
  rewrite E1. apply count_user_ideas_save_idea.
Qed.

(** ** What every step of the script keeps *)

Lemma script_step_store d d' :
  script_step d d' →
  d' = d ∨
  (∃ now cu inp out,
     d' = save_idea now d cu inp out ∧
     can_save (get_user_plan d cu) (count_user_ideas d cu) = true) ∨
  (∃ cu, d' = upgrade_user_plan d cu) ∨
  (∃ u p, add_user d u p = Ok d').
Proof.
  intros [d0 nu np | now d0 cu w].
  - unfold register_button.
    destruct (add_user d0 nu np) as [d1|e] eqn:E; simpl.
    + right. right. right. eauto.
    + left. by destruct e.
  - destruct (logged_in_page_store now d0 cu w)
      as [-> | [(out & -> & _ & _ & _ & Hcs) | (-> & _)]].
    + by left.
    + right. left. eauto 8.
    + right. right. left. eauto.
Qed.

Lemma free_plan_before d d' username :
  script_step d d' →
  get_user_plan d' username = "free" → get_user_plan d username = "free".
Proof.
  intros Hstep%script_step_store.
  destruct Hstep as [-> | [(now & cu & inp & out & -> & _) | [[cu ->] | (u & p & Hadd)]]];
    [done|done| |].
  - unfold get_user_plan. rewrite select_users_upgrade, fetchone_fmap.
    destruct (fetchone (select_users d username)) as [r|]; [|done]. simpl.
    unfold set_pro. by case_decide.
  - destruct (decide (registered d u)) as [Hr|Hno].
    { by rewrite add_user_registered in Hadd. }
    rewrite add_user_fresh in Hadd by done. injection Hadd as <-.
    unfold get_user_plan, fetchone, select_users. simpl. rewrite filter_app.
    by destruct (filter _ (users d)).
Qed.

Lemma count_after_step d d' username :
  script_step d d' →
  count_user_ideas d' username = count_user_ideas d username ∨
  (count_user_ideas d' username = count_user_ideas d username + 1 ∧
   can_save (get_user_plan d username) (count_user_ideas d username) = true).
Proof.
  intros Hstep%script_step_store.
  destruct Hstep as [-> | [(now & cu & inp & out & -> & Hcs) | [[cu ->] | (u & p & Hadd)]]].
  - by left.
  - destruct (decide (username = cu)) as [->|Hne].
    + right. split; [apply count_user_ideas_save_idea|done].
    + left. unfold count_user_ideas. by rewrite select_ideas_save_other.
  - by left.
  - left. destruct (decide (registered d u)) as [Hr|Hno].
    { by rewrite add_user_registered in Hadd. }
    rewrite add_user_fresh in Hadd by done. by injection Hadd as <-.
Qed.

(** The limit of the free plan holds along every run of the script: a
    user who is on the free plan at the end and was within the limit at
    the start (or not on the free plan then) has at most
    [MAX_FREE_COUNT] ideas. *)
Theorem free_quota_kept (d d' : db) (u : string) :
  rtc script_step d d' →
  (get_user_plan d u = "free" → count_user_ideas d u ≤ MAX_FREE_COUNT) →
  get_user_plan d' u = "free" →
  count_user_ideas d' u ≤ MAX_FREE_COUNT.
Proof.
  induction 1 as [d|d d1 d' Hstep _ IH]; [auto|].
  intros Hinv. apply IH. intros Hfree1.
  pose proof (free_plan_before _ _ u Hstep Hfree1) as Hfree.
  destruct (count_after_step _ _ u Hstep) as [-> | [-> Hcs]]; [auto|].
  rewrite Hfree, can_save_unfold in Hcs. unfold MAX_FREE_COUNT in *.
  rewrite bool_decide_eq_true_2 in Hcs by done. simpl in Hcs.
  apply negb_true_iff, bool_decide_eq_false in Hcs. lia.
Qed.

Lemma idea_ids_unique_save_idea now d username user_input out :
  idea_ids_unique d → idea_ids_unique (save_idea now d username user_input out).
Proof.
  unfold idea_ids_unique. simpl. rewrite fmap_app. intros Hnd.
  apply NoDup_app. split; [done|]. split; [|apply NoDup_singleton].
  intros x [r [-> Hr]]%list_elem_of_fmap Hx. simpl in Hx.
  apply list_elem_of_singleton in Hx.
  apply next_rowid_above in Hr. lia.
Qed.

(** Both primary keys hold along every run of the script: no two users
    with one name, no two ideas with one id. *)
Theorem primary_keys_kept (d d' : db) :
  rtc script_step d d' →
  users_unique d → idea_ids_unique d →
  users_unique d' ∧ idea_ids_unique d'.
Proof.
  induction 1 as [d|d d1 d' Hstep _ IH]; [auto|].
  intros Hu Hi. apply script_step_store in Hstep.
  destruct Hstep as [-> | [(now & cu & inp & out & -> & _) | [[cu ->] | (u & p & Hadd)]]].
  - by apply IH.
  - apply IH; [done|]. by apply idea_ids_unique_save_idea.
  - apply IH; [|done]. by apply users_unique_upgrade.
  - apply IH; [by eapply users_unique_add_user|].
    destruct (decide (registered d u)) as [Hr|Hno].
    { by rewrite add_user_registered in Hadd. }
    rewrite add_user_fresh in Hadd by done. by injection Hadd as <-.
Qed.

Lemma stored_hash_after_step d d' username h :
  script_step d d' →
  stored_hash d username = Some h → stored_hash d' username = Some h.
Proof.
  intros Hstep%script_step_store.
  destruct Hstep as [-> | [(now & cu & inp & out & -> & _) | [[cu ->] | (u & p & Hadd)]]];
    [done|done| |].
  - unfold stored_hash. rewrite select_users_upgrade, fetchone_fmap.
    destruct (fetchone (select_users d username)) as [r|]; [|done]. simpl.
    unfold set_pro. by case_decide.
  - destruct (decide (registered d u)) as [Hr|Hno].
    { by rewrite add_user_registered in Hadd. }
    rewrite add_user_fresh in Hadd by done. injection Hadd as <-.
    unfold stored_hash, fetchone, select_users. simpl. rewrite filter_app.
    by destruct (filter _ (users d)).
Qed.

Lemma ideas_after_step d d' :
  script_step d d' → ideas d `prefix_of` ideas d'.
Proof.
  intros Hstep%script_step_store.
  destruct Hstep as [-> | [(now & cu & inp & out & -> & _) | [[cu ->] | (u & p & Hadd)]]];
    [done| |done|].
  - simpl. by eexists.
  - destruct (decide (registered d u)) as [Hr|Hno].
    { by rewrite add_user_registered in Hadd. }
    rewrite add_user_fresh in Hadd by done. by injection Hadd as <-.
Qed.

(** Nothing is deleted or rewritten along a run of the script: the ideas
    of the start are the first rows of the ideas of the end, and a user
    who could log in with a password still can. *)
Theorem script_only_adds (d d' : db) :
  rtc script_step d d' →
  ideas d `prefix_of` ideas d' ∧
  (∀ u p : string, login_user d u p = Some u → login_user d' u p = Some u).
Proof.
  induction 1 as [d|d d1 d' Hstep _ [IHi IHl]]; [done|]. split.
  - etrans; [by apply ideas_after_step|done].
  - intros u p Hlog. apply IHl. rewrite login_user_unfold in *.
    case_bool_decide as Hh; [|done].
    by rewrite bool_decide_eq_true_2 by by eapply stored_hash_after_step.
Qed.

(** ** The history tab *)

(** Tab 2 shows the ideas of its user and no others: there is an
    expander for a timestamp, an input and an output exactly when a row
    of the user holds them, and the notice that nothing is saved exactly
    when the user has no row. *)
Theorem tab2_shows_own_ideas (d : db) (u : string) :
  (∀ ts inp out : string,
     st_expander ts inp out ∈ tab2 d u ↔
     ∃ r, r ∈ ideas d ∧ i_username r = u ∧
          i_timestamp r = ts ∧ i_input r = inp ∧ i_output r = out) ∧
  (st_info "まだ保存されたアイデアはありません。" ∈ tab2 d u ↔
     ∀ r, r ∈ ideas d → i_username r ≠ u).
Proof.
  unfold tab2. split.
  - intros ts inp out. destruct (get_user_ideas d u) as [|row0 l] eqn:E.
    + split.
      * intros Hin. apply list_elem_of_singleton in Hin. discriminate Hin.
      * intros (r & Hr & Hu & _).
        assert (idea_columns r ∈ get_user_ideas d u) as Hin
          by (apply elem_of_get_user_ideas; eauto).
        rewrite E in Hin. by apply not_elem_of_nil in Hin.
    + rewrite <- E. rewrite elem_of_cons, list_elem_of_fmap. split.
      * intros [Hdf | ([[[i ts'] inp'] out'] & [= -> -> ->] & Hin)]; [done|].
        apply elem_of_get_user_ideas in Hin as (r & Hr & Hu & [= _ -> -> ->]).
        eauto 6.
      * intros (r & Hr & Hu & <- & <- & <-). right.
        exists (idea_columns r). split; [done|].
        apply elem_of_get_user_ideas. eauto.
  - destruct (get_user_ideas d u) as [|row0 l] eqn:E.
    + split; [|intros _; left].
      intros _ r Hr Hu.
      assert (idea_columns r ∈ get_user_ideas d u) as Hin
        by (apply elem_of_get_user_ideas; eauto).
      rewrite E in Hin. by apply not_elem_of_nil in Hin.
    + split.
      * intros [Hdf | ([[[i ts'] inp'] out'] & Heq & _)%list_elem_of_fmap]%elem_of_cons;
          done.
      * intros Hnone. exfalso.
        assert (row0 ∈ get_user_ideas d u) as Hin by (rewrite E; left).
        apply elem_of_get_user_ideas in Hin as (r & Hr & Hu & _).
        by apply (Hnone r).
Qed.

(** ** The login button and the session *)

Lemma login_button_cases d logged_in_user username password :
  (login_button d logged_in_user username password = (Some username, [st_rerun]) ∧
   username ≠ "" ∧ login_user d username password = Some username) ∨
  (login_button d logged_in_user username password
     = (logged_in_user, [st_sidebar_error "ユーザー名またはパスワードが違います"]) ∧
   (username = "" ∨ login_user d username password = None)).
Proof.
  unfold login_button. rewrite login_user_unfold.
  case_bool_decide as Hh; [|right; auto].
  unfold truthy. case_bool_decide as Hne; [left|right]; auto.
Qed.

(** The login button opens the session exactly for a name that is not
    empty and a password [login_user] accepts; in every other case it
    shows the one error and leaves the session as it was. *)
Theorem login_button_opens_iff (d : db) (logged_in_user : option string)
    (u p : string) :
  (login_button d logged_in_user u p = (Some u, [st_rerun]) ↔
     u ≠ "" ∧ login_user d u p = Some u) ∧
  (login_button d logged_in_user u p ≠ (Some u, [st_rerun]) →
     login_button d logged_in_user u p
     = (logged_in_user, [st_sidebar_error "ユーザー名またはパスワードが違います"])).
Proof.
  destruct (login_button_cases d logged_in_user u p)
    as [(E & Hne & Hlog) | (E & Hfail)]; rewrite E.
  - split; [done|]. by intros [].
  - split; [|done]. split; [done|].
    intros [Hne Hlog]. destruct Hfail as [->|Hnone]; [done|]. congruence.
Qed.

(** An account with the empty name can be made and then not be used:
    the registration goes through and [login_user] accepts the password,
    but the login button treats the empty name it gets back as a
    failure. *)
Theorem empty_username_cannot_log_in (d : db) (p : string) :
  ¬ registered d "" →
  ∃ d1,
    register_button d "" p
      = (d1, [st_sidebar_success "ユーザー登録が完了しました！ログインしてください。"]) ∧
    registered d1 "" ∧
    login_user d1 "" p = Some "" ∧
    ∀ logged_in_user : option string,
      login_button d1 logged_in_user "" p
      = (logged_in_user, [st_sidebar_error "ユーザー名またはパスワードが違います"]).
Proof.
  intros Hno. pose proof (add_user_fresh d "" p Hno) as Hadd.
  eexists. unfold register_button. rewrite Hadd. split; [done|].
  apply add_user_then_registered in Hadd as (Hr & Hh & _).
  assert (login_user
            (Db (users d ++ [UserRow "" (make_hashes p) "free"]) (ideas d)) "" p
          = Some "") as Hlog.
  { rewrite login_user_unfold, Hh. by rewrite bool_decide_eq_true_2. }
  split; [done|]. split; [done|].
  intros s. unfold login_button. by rewrite Hlog.
Qed.

(** Closes [no_collaborator_call] on a list that is written out. *)
Ltac no_call :=
  let Hin := fresh "Hin" in
  intros ? ? Hin; simpl in Hin;
  repeat (apply elem_of_cons in Hin as [Hin|Hin]; [discriminate Hin|]);
  by apply not_elem_of_nil in Hin.

Lemma logged_out_page_cases d logged_in_user s :
  let res := logged_out_page d logged_in_user s in
  (res.1.1 = logged_in_user ∨
   (res.1.1 = Some (username_box s) ∧ username_box s ≠ "" ∧
    menu s = "ログイン" ∧ login_clicked s = true ∧
    login_user d (username_box s) (password_box s) = Some (username_box s))) ∧
  (res.1.2 = d ∨
   ∃ d', add_user d (new_user_box s) (new_password_box s) = Ok d' ∧ res.1.2 = d') ∧
  no_collaborator_call res.2.
Proof.
  simpl. unfold logged_out_page.
  destruct (decide (menu s = "ログイン")) as [Hm|Hm].
  - destruct (login_clicked s) eqn:Hc; [|by split; [left|split; [left|no_call]]].
    destruct (login_button_cases d logged_in_user (username_box s) (password_box s))
      as [(E & Hne & Hlog) | (E & _)]; rewrite E; simpl.
    + change (reruns [st_rerun]) with true. cbv iota. simpl.
      split; [by right|]. split; [by left|no_call].
    + change (reruns [_]) with false. cbv iota. simpl.
      split; [by left|]. split; [by left|no_call].
  - destruct (decide (menu s = "ユーザー登録"));
      [|by split; [left|split; [left|no_call]]].
    destruct (register_clicked s); [|by split; [left|split; [left|no_call]]].
    unfold register_button.
    destruct (add_user d (new_user_box s) (new_password_box s)) as [d'|err] eqn:Hadd.
    + simpl. split; [by left|]. split; [eauto|no_call].
    + destruct err; simpl; (split; [by left|]); (split; [by left|no_call]).
Qed.

(** After a run of the script somebody is logged in only if they were
    before the run or the run was a login, with the login entry of the
    menu, a name that is not empty and a password [login_user] accepts;
    and the key 'logged_in_user' is there after every run. *)
Theorem session_opened_by_login_only (now : string)
    (session_state : option (option string)) (d : db)
    (s : sidebar_input) (w : page_input) :
  (∃ value, (run_script now session_state d s w).1.1 = Some value) ∧
  (∀ u : string,
     (run_script now session_state d s w).1.1 = Some (Some u) →
     session_state = Some (Some u) ∨
     (u = username_box s ∧ u ≠ "" ∧ menu s = "ログイン" ∧
      login_clicked s = true ∧ login_user d u (password_box s) = Some u)).
Proof.
  unfold run_script.
  pose proof (logged_out_page_cases d None s) as HNone.
  destruct session_state as [[current_user|]|]; cbv zeta.
  - destruct (truthy current_user).
    + destruct (logged_in_page _ _ _ _) as [d' events]. simpl.
      split; [eauto|]. intros u [= ->]. by left.
    + pose proof (logged_out_page_cases d (Some current_user) s) as HSome.
      destruct (logged_out_page d (Some current_user) s) as [[user d'] events].
      simpl in *. split; [eauto|]. intros u [= ->].
      destruct HSome as ([Hu | (Hu & ? & ? & ? & ?)] & _); [left; congruence|].
      right. injection Hu as ->. done.
  - destruct (logged_out_page d None s) as [[user d'] events].
    simpl in *. split; [eauto|]. intros u [= ->].
    destruct HNone as ([Hu | (Hu & ? & ? & ? & ?)] & _); [done|].
    right. injection Hu as ->. done.
  - destruct (logged_out_page d None s) as [[user d'] events].
    simpl in *. split; [eauto|]. intros u [= ->].
    destruct HNone as ([Hu | (Hu & ? & ? & ? & ?)] & _); [done|].
    right. injection Hu as ->. done.
Qed.

Lemma visitor_run now session_state d s w :
  (∀ u, session_state = Some (Some u) → u = "") →
  ideas (run_script now session_state d s w).1.2 = ideas d ∧
  no_collaborator_call (run_script now session_state d s w).2 ∧
  (∀ u p, registered d u →
     login_user (run_script now session_state d s w).1.2 u p = login_user d u p).
Proof.
  intros Hvisitor.
  assert (∀ v, let res := logged_out_page d v s in
    ideas res.1.2 = ideas d ∧ no_collaborator_call res.2 ∧
    (∀ u p, registered d u → login_user res.1.2 u p = login_user d u p)) as Hout.
  { intros v. destruct (logged_out_page_cases d v s) as (_ & Hd & Hev).
    simpl. split; [|split; [done|]].
    - destruct Hd as [-> | (d' & Hadd & ->)]; [done|].
      destruct (decide (registered d (new_user_box s))) as [Hr|Hno].
      { by rewrite add_user_registered in Hadd. }
      rewrite add_user_fresh in Hadd by done. by injection Hadd as <-.
    - intros u p Hr. destruct Hd as [-> | (d' & Hadd & ->)]; [done|].
      apply login_user_select.
      rewrite (select_users_add_other _ _ _ _ _ Hadd); [done|].
      intros ->. by rewrite add_user_registered in Hadd. }
  unfold run_script. destruct session_state as [[current_user|]|]; cbv zeta.
  - rewrite (Hvisitor current_user eq_refl). change (truthy "") with false.
    cbv iota. specialize (Hout (Some "")).
    by destruct (logged_out_page d (Some "") s) as [[user d'] events].
  - specialize (Hout None).
    by destruct (logged_out_page d None s) as [[user d'] events].
  - specialize (Hout None).
    by destruct (logged_out_page d None s) as [[user d'] events].
Qed.

(** A run with nobody logged in writes no idea, calls the collaborator
    never, and leaves the login of every registered user as it was. *)
Theorem visitor_run_keeps_store (now : string)
    (session_state : option (option string)) (d : db)
    (s : sidebar_input) (w : page_input) :
  (∀ u, session_state = Some (Some u) → u = "") →
  ideas (run_script now session_state d s w).1.2 = ideas d ∧
  no_collaborator_call (run_script now session_state d s w).2 ∧
  (∀ u p, registered d u →
     login_user (run_script now session_state d s w).1.2 u p = login_user d u p).
Proof. apply visitor_run. Qed.

(** The logout: the callback takes the key out of a session that has it
    (and fails on one that has not), and the run that follows is a
    visitor's, whatever the widgets of the user's page hold: no idea is
    written and the collaborator is not called. *)
Theorem logout_then_visitor (now : string) (value : option string) (d : db)
    (s : sidebar_input) (w : page_input) :
  logout_callback None = None ∧
  ∃ session_state,
    logout_callback (Some value) = Some session_state ∧
    ideas (run_script now session_state d s w).1.2 = ideas d ∧
    no_collaborator_call (run_script now session_state d s w).2.
Proof.
  split; [done|]. exists None. split; [done|].
  destruct (visitor_run now None d s w) as (Hi & Hc & _); done.
Qed.

(** ** The substring test of the migration *)

Lemma string_prefix_iff (s1 s2 : string) :
  String.prefix s1 s2 = true ↔ ∃ rest, s2 = s1 +:+ rest.
Proof.
  revert s2. induction s1 as [|a s1 IH]; intros s2.
  - split; [intros _; by exists s2|by destruct s2].
  - destruct s2 as [|b s2]; simpl.
    + split; [done|]. by intros [rest Heq].
    + destruct (Ascii.ascii_dec a b) as [->|Hne].
      * rewrite IH. split.
        -- intros [rest ->]. by exists rest.
        -- intros [rest [= ->]]. by exists rest.
      * split; [done|]. intros [rest [= E _]]. by destruct Hne.
Qed.

Lemma str_contains_unfold needle haystack :
  str_contains needle haystack
  = String.prefix needle haystack ||
    match haystack with
    | EmptyString => false
    | String _ rest => str_contains needle rest
    end.
Proof. by destruct haystack. Qed.

(** [str_contains] is Python's [in] on strings: it holds exactly when the
    haystack is some text, the needle, and some text. *)
Theorem str_contains_iff_substring (needle haystack : string) :
  str_contains needle haystack = true ↔
  ∃ before after, haystack = before +:+ needle +:+ after.
Proof.
  split.
  - induction haystack as [|c rest IH]; rewrite str_contains_unfold.
    + rewrite orb_false_r. intros [after ->]%string_prefix_iff.
      by exists "", after.
    + intros [[after ->]%string_prefix_iff | Hrest]%orb_true_iff.
      * by exists "", after.
      * destruct (IH Hrest) as (before & after & ->).
        by exists (String c before), after.
  - intros (before & after & ->).
    induction before as [|c before IH]; rewrite str_contains_unfold.
    + apply orb_true_iff. left. apply string_prefix_iff. by exists after.
    + apply orb_true_iff. right. exact IH.
Qed.

(** ** Two more facts on accounts *)

Lemma registered_add_user d username password d' other :
  add_user d username password = Ok d' → registered d other → registered d' other.
Proof.
  intros Hadd Hr. destruct (decide (registered d username)) as [Hr'|Hno].
  { by rewrite add_user_registered in Hadd. }
  rewrite add_user_fresh in Hadd by done. injection Hadd as <-.
  unfold registered in *. simpl. rewrite fmap_app. apply elem_of_app. by left.
Qed.

Lemma registered_after_step d d' username :
  script_step d d' → registered d username → registered d' username.
Proof.
  intros Hstep [r Hr]%registered_fetchone.
  assert (stored_hash d username = Some (u_password r)) as Hh
    by (unfold stored_hash; by rewrite Hr).
  apply (stored_hash_after_step _ _ _ _ Hstep) in Hh.
  by apply stored_hash_registered in Hh.
Qed.

(** The digest is of the password alone: two accounts made with one
    password hold the same text in the password column. *)
Theorem same_password_same_hash (d : db) (u1 u2 p : string) (d1 d2 : db) :
  add_user d u1 p = Ok d1 →
  add_user d1 u2 p = Ok d2 →
  u1 ≠ u2 ∧
  stored_hash d2 u1 = Some (make_hashes p) ∧
  stored_hash d2 u2 = Some (make_hashes p).
Proof.
  intros Hadd1 Hadd2.
  apply add_user_then_registered in Hadd1 as (Hr1 & Hh1 & _).
  assert (u1 ≠ u2) as Hne.
  { intros ->. by rewrite add_user_registered in Hadd2. }
  split; [done|]. split.
  - unfold stored_hash in *.
    by rewrite (select_users_add_other _ _ _ _ _ Hadd2 Hne).
  - by apply add_user_then_registered in Hadd2 as (_ & Hh2 & _).
Qed.

(** Whoever is logged in has an account: if the user of the session had
    a row before a run of the script, the user of the session after the
    run has one in the store after the run. *)
Theorem session_user_registered (now : string)
    (session_state : option (option string)) (d : db)
    (s : sidebar_input) (w : page_input) (u : string) :
  (∀ u0, session_state = Some (Some u0) → registered d u0) →
  (run_script now session_state d s w).1.1 = Some (Some u) →
  registered (run_script now session_state d s w).1.2 u.
Proof.
  intros Hold.
  assert (∀ v, (∀ u0, v = Some u0 → registered d u0) →
            let res := logged_out_page d v s in
            res.1.1 = Some u → registered res.1.2 u) as Hout.
  { intros v Hv. destruct (logged_out_page_cases d v s) as (Hu & Hd & _).
    simpl. intros Hsess.
    assert (registered d u) as Hr.
    { destruct Hu as [Hu | (Hu & _ & _ & _ & Hlog)].
      - apply Hv. congruence.
      - rewrite Hsess in Hu. injection Hu as ->.
        rewrite login_user_unfold in Hlog. case_bool_decide as Hh; [|done].
        by eapply stored_hash_registered. }
    destruct Hd as [-> | (d' & Hadd & ->)]; [done|].
    by eapply registered_add_user. }
  unfold run_script. destruct session_state as [[current_user|]|]; cbv zeta.
  - destruct (truthy current_user).
    + pose proof (step_page now d current_user w) as Hstep.
      destruct (logged_in_page _ _ _ _) as [d' events]. simpl in *.
      intros [= <-]. eapply registered_after_step; [done|]. by apply Hold.
    + specialize (Hout (Some current_user)).
      destruct (logged_out_page d (Some current_user) s) as [[user d'] events].
      simpl in *. intros [= ->]. apply Hout; [|done].
      intros u0 [= <-]. by apply Hold.
  - specialize (Hout None).
    destruct (logged_out_page d None s) as [[user d'] events].
    simpl in *. intros [= ->]. by apply Hout.
  - specialize (Hout None).
    destruct (logged_out_page d None s) as [[user d'] events].
    simpl in *. intros [= ->]. by apply Hout.
Qed.

End App.

(** ** The statements on the example store *)

Lemma login_user_iff_hash_matches_witness :
  login_user example_hash example_db "alice" "secret" = Some "alice".
Proof.
  destruct (login_user_iff_hash_matches example_hash example_db "alice" "secret")
    as (_ & _ & _ & _ & Hrow).
  apply Hrow.
  - apply (bool_decide_unpack _). vm_compute. exact I.
  - exists (UserRow "alice" (example_hash "secret") "free").
    split; [left|]. split; reflexivity.
Defined.

Lemma login_miss_and_mismatch_alike_witness :
  login_user example_hash example_db "bob" "secret" = None ∧
  login_user example_hash example_db "alice" "guess" = None ∧
  login_user example_hash example_db "bob" "secret"
    = login_user example_hash example_db "alice" "guess" ∧
  login_button example_hash example_db None "bob" "secret"
    = login_button example_hash example_db None "alice" "guess".
Proof.
  apply (login_miss_and_mismatch_alike example_hash example_db example_db
           "bob" "secret" "alice" "guess" None); vm_compute.
  - intros H. inversion H as [|? ? ? H']; subst. inversion H'.
  - left.
  - discriminate.
Defined.

Lemma register_existing_user_rejected_witness :
  add_user example_hash example_db "alice" "other"
    = Raise (IntegrityError "UNIQUE constraint failed: users.username") ∧
  register_button example_hash example_db "alice" "other"
    = (example_db, [st_sidebar_error "そのユーザー名は既に使われています。"]) ∧
  (∀ e : exn, st_sidebar_error "そのユーザー名は既に使われています。"
              ≠ st_sidebar_error ("登録エラー: " +:+ exn_str e)) ∧
  stored_hash (register_button example_hash example_db "alice" "other").1 "alice"
    = stored_hash example_db "alice" ∧
  get_user_plan (register_button example_hash example_db "alice" "other").1 "alice"
    = get_user_plan example_db "alice".
Proof.
  apply (register_existing_user_rejected example_hash example_db "alice" "other").
  vm_compute. left.
Defined.

Lemma upgrade_user_plan_idempotent_witness :
  get_user_plan (upgrade_user_plan example_db "alice") "alice" = "pro" ∧
  upgrade_user_plan (upgrade_user_plan example_db "alice") "alice"
    = upgrade_user_plan example_db "alice" ∧
  get_user_plan (upgrade_user_plan (upgrade_user_plan example_db "alice") "alice")
    "alice" = "pro" ∧
  (∀ d', rtc (script_step example_hash example_collaborator example_store_writes)
             (upgrade_user_plan example_db "alice") d' →
     get_user_plan d' "alice" = "pro" ∧
     ∀ k : Z, can_save (get_user_plan d' "alice") k = true).
Proof.
  apply (upgrade_user_plan_idempotent example_hash example_collaborator
           example_store_writes
           example_db "alice").
  vm_compute. left.
Defined.

(** C2 as the specification words it fails on a seed of one space: the
    seed is blank, yet the collaborator is called with it, no warning is
    shown, and the pair is stored, so that the count of the user goes from
    0 to 1. *)
Lemma blank_seed_reaches_collaborator :
  blank " " = true ∧
  generate_button_tab1 example_collaborator example_store_writes "2025-01-01 00:00:00" example_db
    "alice" (can_save (get_user_plan example_db "alice")
                      (count_user_ideas example_db "alice")) " "
  = (Db (users example_db)
        [IdeaRow 1 "alice" " " "1. a 2. b 3. c" "2025-01-01 00:00:00"],
     [st_spinner "Geminiが思考中...";
      models_generate_content model_name (prompt_of " ");
      st_subheader "🤖 Geminiからの深掘り質問";
      st_markdown "1. a 2. b 3. c";
      st_success "アイデアと質問を保存しました！";
      st_rerun]) ∧
  count_user_ideas example_db "alice" = 0 ∧
  count_user_ideas
    (generate_button_tab1 example_collaborator example_store_writes "2025-01-01 00:00:00" example_db
       "alice" true " ").1 "alice" = 1.
Proof. repeat split; vm_compute; reflexivity. Qed.

(** ** The further statements on the example stores *)

Lemma register_then_login_witness :
  login_user example_hash example_db_bob "bob" "pw" = Some "bob" ∧
  (∀ p' : string, example_hash p' ≠ example_hash "pw" →
     login_user example_hash example_db_bob "bob" p' = None) ∧
  get_user_plan example_db_bob "bob" = "free".
Proof.
  apply (register_then_login example_hash example_db "bob" "pw" example_db_bob).
  reflexivity.
Defined.

Lemma add_user_keeps_others_witness :
  ¬ registered example_db "bob" ∧
  ideas example_db_bob = ideas example_db ∧
  (∀ u' p' : string, u' ≠ "bob" →
     login_user example_hash example_db_bob u' p'
     = login_user example_hash example_db u' p') ∧
  (∀ u' : string, u' ≠ "bob" →
     get_user_plan example_db_bob u' = get_user_plan example_db u').
Proof.
  apply (add_user_keeps_others example_hash example_db "bob" "pw" example_db_bob).
  reflexivity.
Defined.

Lemma upgrade_unregistered_noop_witness :
  upgrade_user_plan example_db "bob" = example_db ∧
  get_user_plan (upgrade_user_plan example_db "bob") "bob" = "free".
Proof.
  apply (upgrade_unregistered_noop example_db "bob").
  apply (bool_decide_unpack _). vm_compute. exact I.
Defined.

Lemma generate_shows_answer_or_error_witness :
  (∀ out, example_collaborator model_name (prompt_of "seed") = Ok out →
     st_markdown out
       ∈ (generate_button_tab1 example_collaborator example_store_writes
            "2025-01-01 00:00:00" example_db "alice" true "seed").2 ∧
     ((∃ body, st_error body
          ∈ (generate_button_tab1 example_collaborator example_store_writes
               "2025-01-01 00:00:00" example_db "alice" true "seed").2) ↔
      true = true ∧
      ∃ e, example_store_writes "2025-01-01 00:00:00" example_db "alice"
             "seed" out = Some e)) ∧
  (∀ out e, example_collaborator model_name (prompt_of "seed") = Ok out →
     true = true →
     example_store_writes "2025-01-01 00:00:00" example_db "alice" "seed" out
       = Some e →
     generate_button_tab1 example_collaborator example_store_writes
       "2025-01-01 00:00:00" example_db "alice" true "seed"
     = (example_db,
        [st_spinner "Geminiが思考中...";
         models_generate_content model_name (prompt_of "seed");
         st_subheader "🤖 Geminiからの深掘り質問";
         st_markdown out;
         st_error ("エラーが発生しました: " +:+ exn_str e)])) ∧
  (∀ e, example_collaborator model_name (prompt_of "seed") = Raise e →
     generate_button_tab1 example_collaborator example_store_writes
       "2025-01-01 00:00:00" example_db "alice" true "seed"
     = (example_db,
        [st_spinner "Geminiが思考中...";
         models_generate_content model_name (prompt_of "seed");
         st_error ("エラーが発生しました: " +:+ exn_str e)])).
Proof.
  apply (generate_shows_answer_or_error example_collaborator
           example_store_writes
           "2025-01-01 00:00:00" example_db "alice" true "seed").
  discriminate.
Defined.

Lemma page_at_limit_saves_nothing_witness :
  ideas (logged_in_page example_collaborator example_store_writes "2025-01-02 00:00:00"
           example_db_full "alice" (PageInput "seed" true false)).1
  = ideas example_db_full ∧
  (∀ out, generate_clicked (PageInput "seed" true false) = true →
     input_tab1 (PageInput "seed" true false) ≠ "" →
     example_collaborator model_name
       (prompt_of (input_tab1 (PageInput "seed" true false))) = Ok out →
     st_markdown out
       ∈ (logged_in_page example_collaborator example_store_writes "2025-01-02 00:00:00"
            example_db_full "alice" (PageInput "seed" true false)).2).
Proof.
  apply (page_at_limit_saves_nothing example_collaborator example_store_writes "2025-01-02 00:00:00"
           example_db_full "alice" (PageInput "seed" true false)).
  - reflexivity.
  - vm_compute. discriminate.
Defined.

Lemma page_below_limit_saves_witness :
  (logged_in_page example_collaborator example_store_writes "2025-01-02 00:00:00"
     example_db "alice" (PageInput "seed" true false)).1
  = save_idea "2025-01-02 00:00:00" example_db "alice" "seed" "1. a 2. b 3. c" ∧
  count_user_ideas
    (logged_in_page example_collaborator example_store_writes "2025-01-02 00:00:00"
       example_db "alice" (PageInput "seed" true false)).1 "alice"
  = count_user_ideas example_db "alice" + 1 ∧
  last (logged_in_page example_collaborator example_store_writes "2025-01-02 00:00:00"
          example_db "alice" (PageInput "seed" true false)).2
  = Some st_rerun.
Proof.
  apply (page_below_limit_saves example_collaborator example_store_writes "2025-01-02 00:00:00"
           example_db "alice" (PageInput "seed" true false) "1. a 2. b 3. c").
  - reflexivity.
  - reflexivity.
  - discriminate.
  - reflexivity.
  - reflexivity.
Defined.

Lemma free_quota_kept_witness :
  count_user_ideas
    (logged_in_page example_collaborator example_store_writes "2025-01-02 00:00:00"
       example_db_full "alice" (PageInput "seed" true false)).1 "alice"
  ≤ MAX_FREE_COUNT.
Proof.
  apply (free_quota_kept example_hash example_collaborator example_store_writes example_db_full).
  - apply rtc_once. apply step_page.
  - intros _. vm_compute. discriminate.
  - reflexivity.
Defined.

Lemma primary_keys_kept_witness :
  users_unique
    (logged_in_page example_collaborator example_store_writes "2025-01-02 00:00:00"
       example_db "alice" (PageInput "seed" true false)).1 ∧
  idea_ids_unique
    (logged_in_page example_collaborator example_store_writes "2025-01-02 00:00:00"
       example_db "alice" (PageInput "seed" true false)).1.
Proof.
  apply (primary_keys_kept example_hash example_collaborator example_store_writes example_db).
  - apply rtc_once. apply step_page.
  - apply (bool_decide_unpack _). vm_compute. exact I.
  - apply NoDup_nil_2.
Defined.

Lemma script_only_adds_witness :
  ideas example_db
    `prefix_of` ideas (register_button example_hash example_db "bob" "pw").1 ∧
  (∀ u p : string,
     login_user example_hash example_db u p = Some u →
     login_user example_hash
       (register_button example_hash example_db "bob" "pw").1 u p = Some u).
Proof.
  apply (script_only_adds example_hash example_collaborator example_store_writes example_db).
  apply rtc_once. apply step_register.
Defined.

Lemma empty_username_cannot_log_in_witness :
  ∃ d1,
    register_button example_hash example_db "" "pw"
      = (d1, [st_sidebar_success "ユーザー登録が完了しました！ログインしてください。"]) ∧
    registered d1 "" ∧
    login_user example_hash d1 "" "pw" = Some "" ∧
    ∀ logged_in_user : option string,
      login_button example_hash d1 logged_in_user "" "pw"
      = (logged_in_user, [st_sidebar_error "ユーザー名またはパスワードが違います"]).
Proof.
  apply (empty_username_cannot_log_in example_hash example_db "pw").
  apply (bool_decide_unpack _). vm_compute. exact I.
Defined.

Lemma visitor_run_keeps_store_witness :
  ideas (run_script example_hash example_collaborator example_store_writes "2025-01-02 00:00:00"
           None example_db
           (SidebarInput "ユーザー登録" "" "" false "bob" "pw" true)
           (PageInput "seed" true true)).1.2
  = ideas example_db ∧
  no_collaborator_call
    (run_script example_hash example_collaborator example_store_writes "2025-01-02 00:00:00"
       None example_db
       (SidebarInput "ユーザー登録" "" "" false "bob" "pw" true)
       (PageInput "seed" true true)).2 ∧
  (∀ u p, registered example_db u →
     login_user example_hash
       (run_script example_hash example_collaborator example_store_writes "2025-01-02 00:00:00"
          None example_db
          (SidebarInput "ユーザー登録" "" "" false "bob" "pw" true)
          (PageInput "seed" true true)).1.2 u p
     = login_user example_hash example_db u p).
Proof.
  apply (visitor_run_keeps_store example_hash example_collaborator
           example_store_writes
           "2025-01-02 00:00:00" None example_db
           (SidebarInput "ユーザー登録" "" "" false "bob" "pw" true)
           (PageInput "seed" true true)).
  intros u Hu. discriminate Hu.
Defined.

Lemma same_password_same_hash_witness :
  "bob" ≠ "carol" ∧
  stored_hash
    (Db [UserRow "alice" (example_hash "secret") "free";
         UserRow "bob" (example_hash "pw") "free";
         UserRow "carol" (example_hash "pw") "free"] []) "bob"
  = Some (example_hash "pw") ∧
  stored_hash
    (Db [UserRow "alice" (example_hash "secret") "free";
         UserRow "bob" (example_hash "pw") "free";
         UserRow "carol" (example_hash "pw") "free"] []) "carol"
  = Some (example_hash "pw").
Proof.
  apply (same_password_same_hash example_hash example_db "bob" "carol" "pw"
           example_db_bob).
  - reflexivity.
  - reflexivity.
Defined.

Lemma session_user_registered_witness :
  registered
    (run_script example_hash example_collaborator example_store_writes "2025-01-02 00:00:00"
       (Some None) example_db
       (SidebarInput "ログイン" "alice" "secret" true "" "" false)
       (PageInput "" false false)).1.2 "alice".
Proof.
  apply (session_user_registered example_hash example_collaborator
           example_store_writes
           "2025-01-02 00:00:00" (Some None) example_db
           (SidebarInput "ログイン" "alice" "secret" true "" "" false)
           (PageInput "" false false) "alice").
  - intros u0 Hu0. discriminate Hu0.
  - reflexivity.
Defined.
